(** * VerbaFlow (agent.py): prompts, gateway calls, exporters and the UI run

    A shallow embedding of [src/agent.py].  Python [str] values are sequences
    of Unicode code points, [bytes] values are sequences of bytes, raised
    exceptions are an explicit [Raise] outcome, and the effects of a script
    run (calls to the hosted model, temporary files, the Streamlit session
    dictionary, the widgets drawn) are threaded through a [World]. *)

From Stdlib Require Import NArith Ascii String Lia.
From Stdlib.Strings Require Import Byte.
From stdpp Require Import base option list gmap strings.

Local Open Scope N_scope.
Local Open Scope list_scope.

(** ** Python strings *)

(** A Python [str]: the sequence of its code points. *)
Abbreviation pystr := (list N).
(** A Python [bytes] object. *)
Abbreviation pybytes := (list byte).

Module PyStr.

(** A source literal (all literals of agent.py that matter here are ASCII). *)
Definition lit (s : string) : pystr :=
  List.map N_of_ascii (list_ascii_of_string s).

(** ["\n"] *)
Definition nl : pystr := [10].

(** [a == b] *)
Fixpoint eqb (a b : pystr) : bool :=
  match a, b with
  | [], [] => true
  | x :: a', y :: b' => (x =? y) && eqb a' b'
  | _, _ => false
  end.

(** [s.startswith(p)] *)
Fixpoint starts_with (p s : pystr) : bool :=
  match p, s with
  | [], _ => true
  | _ :: _, [] => false
  | a :: p', b :: s' => (a =? b) && starts_with p' s'
  end.

(** [sub in s] *)
Fixpoint contains (sub s : pystr) : bool :=
  starts_with sub s ||
  match s with
  | [] => false
  | _ :: s' => contains sub s'
  end.

(** [s] occurs in [t] as a contiguous run of characters. *)
Definition substring (s t : pystr) : Prop :=
  exists pre post, t = pre ++ s ++ post.

(** The scanning loop of [s.replace(old, new)] for a non-empty [old]: the
    text is read left to right; at an occurrence of [old] the replacement is
    emitted and the scan resumes behind the occurrence ([skip] counts the
    characters of the occurrence still to be passed over), so occurrences
    never overlap and replaced text is not scanned again. *)
Fixpoint replace_from (old new : pystr) (skip : nat) (s : pystr) : pystr :=
  match s with
  | [] => []
  | c :: s' =>
      match skip with
      | S k => replace_from old new k s'
      | O =>
          if starts_with old s
          then new ++ replace_from old new (Nat.pred (length old)) s'
          else c :: replace_from old new 0 s'
      end
  end.

(** [s.replace(old, new)].  For the empty [old] Python inserts [new] before
    every character and at the end. *)
Definition replace (s old new : pystr) : pystr :=
  match old with
  | [] => new ++ List.flat_map (fun c => c :: new) s
  | _ :: _ => replace_from old new 0 s
  end.

(** [c.isspace()]: the code points Python treats as whitespace, which are
    those removed by [strip()] without an argument. *)
Definition isspace (c : N) : bool :=
  ((9 <=? c) && (c <=? 13)) || ((28 <=? c) && (c <=? 32)) ||
  (c =? 133) || (c =? 160) || (c =? 5760) ||
  ((8192 <=? c) && (c <=? 8202)) ||
  (c =? 8232) || (c =? 8233) || (c =? 8239) || (c =? 8287) || (c =? 12288).

Fixpoint lstrip (s : pystr) : pystr :=
  match s with
  | [] => []
  | c :: s' => if isspace c then lstrip s' else s
  end.

Definition rstrip (s : pystr) : pystr := rev (lstrip (rev s)).

(** [s.strip()] *)
Definition strip (s : pystr) : pystr := rstrip (lstrip s).

(** [d.get(k, default)] on a dict literal, kept as its list of items. *)
Fixpoint dict_get (d : list (pystr * pystr)) (k default : pystr) : pystr :=
  match d with
  | [] => default
  | (k', v) :: d' => if eqb k' k then v else dict_get d' k default
  end.

End PyStr.

Import PyStr.

(** ** The latin-1 codec *)

Module Latin1.

(** The byte of ['?'], the codec's replacement character. *)
Definition qmark : byte := "?"%byte.

(** [t.encode('latin-1', 'replace')]: a code point below 256 is its own byte,
    any other becomes ['?']. *)
Definition encode_replace (t : pystr) : pybytes :=
  List.map (fun c => match Byte.of_N c with Some b => b | None => qmark end) t.

(** [t.encode('latin-1')] (strict): [None] stands for UnicodeEncodeError. *)
Fixpoint encode_strict (t : pystr) : option pybytes :=
  match t with
  | [] => Some []
  | c :: t' =>
      match Byte.of_N c, encode_strict t' with
      | Some b, Some bs => Some (b :: bs)
      | _, _ => None
      end
  end.

(** [b.decode('latin-1')]: total, every byte is a code point. *)
Definition decode (b : pybytes) : pystr := List.map Byte.to_N b.

(** Code points the codec can encode. *)
Definition encodable (c : N) : Prop := c < 256.

End Latin1.

(** ** Exceptions, the world and the effect monad *)

(** What a Python call can raise.  [PyException cls msg] is an instance of a
    subclass [cls] of [Exception] with [str(e) = msg].
    [RerunException] is the signal raised by [st.rerun()]: it derives from
    BaseException, so [except Exception] does not catch it. *)
Inductive exn : Type :=
| PyException (cls : string) (msg : pystr)
| RerunException.

Inductive result (A : Type) : Type :=
| Ok (a : A)
| Raise (e : exn).
Arguments Ok {A} a.
Arguments Raise {A} e.

(** What a call into a third-party library or service gives back: a value,
    or a failure reported as an exception of class [cls] (a subclass of
    [Exception]) whose [str] is [msg]. *)
Inductive outcome (A : Type) : Type :=
| Reply (a : A)
| Failure (cls : string) (msg : pystr).
Arguments Reply {A} a.
Arguments Failure {A} cls msg.

Definition to_result {A : Type} (o : outcome A) : result A :=
  match o with
  | Reply a => Ok a
  | Failure cls msg => Raise (PyException cls msg)
  end.

(** A temporary file: the suffix it was created with and its contents. *)
Record file : Type := mkFile { suffix : string; content : pybytes }.

(** A request made to the hosted model. *)
Inductive gw_call : Type :=
| Upload (path : positive)
| Generate (prompt : pystr) (attachment : option N).

(** What a script run draws on the page. *)
Inductive widget : Type :=
| Title (body : pystr)
| Subheader (body : pystr)
| Markdown (body : pystr)
| TextInput (label : pystr)
| AudioInput (label : pystr)
| Warning (body : pystr)
| Info (body : pystr)
| Mermaid (code : pystr)
| Code (body : pystr)
| Spinner (text : pystr)
| Button (label : pystr)
| DownloadButton (label : pystr) (data : pybytes) (file_name : pystr).

(** [st.session_state], the temporary files on disk, the requests made to
    the hosted model so far (latest first), and the page drawn by the current
    script run (latest widget first). *)
Record World : Type := mkWorld {
  session_state : gmap string pystr;
  files : gmap positive file;
  calls : list gw_call;
  screen : list widget
}.

(** Method calls on an [FPDF] object, in the order they are made. *)
Inductive pdf_call : Type :=
| AddPage
| SetFont (family style : string) (size : N)
| Cell (w h : N) (txt : pystr) (ln : bool) (align : string)
| MultiCell (w h : N) (txt : pystr)
| Ln (h : N).

(** The content handed to a python-docx [Document]. *)
Inductive docx_item : Type :=
| AddHeading (text : pystr) (level : N)
| AddParagraph (text : pystr).

(** The third-party services and libraries agent.py calls; their code is not
    part of the repository.  The hosted model may answer differently each
    time, so its replies depend on the history of requests.
    [generate_content] stands for [model.generate_content(..)] followed by
    [.text] on the response; [fpdf_output] for the outcome of the given
    sequence of calls on a new [FPDF()] ended by [output(dest='S')];
    [docx_save] for the bytes [doc.save] writes; [st_mermaid] for whether
    the diagram component renders the given code or raises. *)
Record Env : Type := mkEnv {
  upload_file : list gw_call -> positive -> option file -> outcome N;
  generate_content : list gw_call -> pystr -> option N -> outcome pystr;
  fpdf_output : list pdf_call -> outcome pystr;
  docx_save : list docx_item -> outcome pybytes;
  st_mermaid : pystr -> outcome unit
}.

Definition M (A : Type) : Type := World -> result A * World.

Definition ret {A : Type} (a : A) : M A := fun w => (Ok a, w).

Definition raise {A : Type} (e : exn) : M A := fun w => (Raise e, w).

Definition bind {A B : Type} (m : M A) (k : A -> M B) : M B :=
  fun w =>
    match m w with
    | (Ok a, w') => k a w'
    | (Raise e, w') => (Raise e, w')
    end.

Declare Scope py_scope.
Delimit Scope py_scope with py.
Notation "'do' x <- m 'in' k" := (bind m (fun x => k))
  (at level 10, x name, m at level 100, k at level 200) : py_scope.
Notation "'exec' m 'in' k" := (bind m (fun _ => k))
  (at level 10, m at level 100, k at level 200) : py_scope.
Local Open Scope py_scope.

(** [try: body except Exception as e: handler(e)] *)
Definition try_except {A : Type} (body : M A) (handler : exn -> M A) : M A :=
  fun w =>
    match body w with
    | (Raise (PyException cls msg), w') => handler (PyException cls msg) w'
    | other => other
    end.

(** [str(e)] *)
Definition exn_str (e : exn) : pystr :=
  match e with
  | PyException _ msg => msg
  | RerunException => []
  end.

Definition when (b : bool) (m : M unit) : M unit := if b then m else ret tt.

(** Drawing a widget on the page. *)
Definition draw (x : widget) : M unit :=
  fun w => (Ok tt, mkWorld (session_state w) (files w) (calls w) (x :: screen w)).

(** [st.session_state[k] = v] *)
Definition session_set (k : string) (v : pystr) : M unit :=
  fun w => (Ok tt, mkWorld (<[k := v]> (session_state w)) (files w) (calls w) (screen w)).

(** [k in st.session_state] *)
Definition session_has (k : string) : M bool :=
  fun w => (Ok (bool_decide (is_Some (session_state w !! k))), w).

(** [st.session_state[k]]; a missing key raises KeyError. *)
Definition session_get (k : string) : M pystr :=
  fun w =>
    match session_state w !! k with
    | Some v => (Ok v, w)
    | None => (Raise (PyException "KeyError" (lit k)), w)
    end.

(** [with tempfile.NamedTemporaryFile(delete=False, suffix=sfx) as tmp:
    tmp.write(data)], giving [tmp.name]: a file under a name not in use.
    With [delete=False] leaving the [with] block closes the file and keeps
    it on disk. *)
Definition named_temporary_file (sfx : string) (data : pybytes) : M positive :=
  fun w =>
    let name := fresh (dom (files w)) in
    (Ok name,
     mkWorld (session_state w) (<[name := mkFile sfx data]> (files w)) (calls w) (screen w)).

(** [open(path, "rb").read()] *)
Definition read_file (path : positive) : M pybytes :=
  fun w =>
    match files w !! path with
    | Some f => (Ok (content f), w)
    | None => (Raise (PyException "FileNotFoundError" []), w)
    end.

Section Program.

Variable env : Env.

(** [genai.upload_file(path=p)] *)
Definition gw_upload (p : positive) : M N :=
  fun w =>
    (to_result (upload_file env (calls w) p (files w !! p)),
     mkWorld (session_state w) (files w) (Upload p :: calls w) (screen w)).

(** [self.model.generate_content(..).text] *)
Definition gw_generate (prompt : pystr) (attachment : option N) : M pystr :=
  fun w =>
    (to_result (generate_content env (calls w) prompt attachment),
     mkWorld (session_state w) (files w) (Generate prompt attachment :: calls w) (screen w)).

(** *** class TranscriptionAgent *)

Definition indent : pystr := lit "            ".

Definition transcribe_prompt : pystr :=
  nl ++ indent ++ lit "Listen to this audio carefully. It may contain English, Hindi, or Hinglish." ++
  nl ++ indent ++ lit "1. Transcribe it exactly as spoken." ++
  nl ++ indent ++ lit "2. Distinguish between speakers (e.g., 'Speaker 1:', 'Speaker 2:')." ++
  nl ++ indent ++ lit "3. If it's a lecture, label the main speaker as 'Lecturer'." ++
  nl ++ indent.

Definition listen_and_transcribe (audio_file_path : positive) : M pystr :=
  try_except
    (do audio_file <- gw_upload audio_file_path in
     let prompt := transcribe_prompt in
     do text <- gw_generate prompt (Some audio_file) in
     ret text)
    (fun e => ret (lit "Agent Error: " ++ exn_str e)).

(** The dict [prompts] of think_and_process. *)
Definition prompts (text : pystr) : list (pystr * pystr) :=
  [ (lit "Summarize", lit "Create a comprehensive bullet-point summary:" ++ nl ++ nl ++ text);
    (lit "Elaborate", lit "Explain the concepts simply for a beginner:" ++ nl ++ nl ++ text);
    (lit "Action Items", lit "Identify tasks and assignments as a checklist:" ++ nl ++ nl ++ text);
    (lit "Quiz", lit "Generate 3 quiz questions with answers at the bottom:" ++ nl ++ nl ++ text);
    (lit "Mind Map",
      nl ++ indent ++ lit "Create a Mermaid.js flowchart code to visualize connections." ++
      nl ++ indent ++ lit "- Start with 'graph TD'." ++
      nl ++ indent ++ lit "- Use short node labels." ++
      nl ++ indent ++ lit "- Do NOT use markdown code blocks. Return raw code only." ++
      nl ++ indent ++ lit "Text: " ++ text ++
      nl ++ indent) ].

(** [prompts.get(task, "Analyze this text.")] *)
Definition build_prompt (text task : pystr) : pystr :=
  dict_get (prompts text) task (lit "Analyze this text.").

Definition fence : pystr := lit "```".
Definition fence_mermaid : pystr := lit "```mermaid".

(** [reply.replace('```mermaid', '').replace('```', '').strip()] *)
Definition strip_fences (reply : pystr) : pystr :=
  strip (replace (replace reply fence_mermaid []) fence []).

Definition think_and_process (text task : pystr) : M pystr :=
  let prompt := build_prompt text task in
  do reply <- gw_generate prompt None in
  ret (strip_fences reply).

Definition ask_question (transcript question : pystr) : M pystr :=
  let prompt :=
    lit "Context: " ++ transcript ++ nl ++ nl ++ lit "Question: " ++ question ++
    nl ++ nl ++ lit "Answer concisely based on context:" in
  do reply <- gw_generate prompt None in
  ret reply.

(** *** File generators *)

Definition lift {A : Type} (r : result A) : M A := fun w => (r, w).

(** [clean] of create_pdf:
    [t.encode('latin-1', 'replace').decode('latin-1')] *)
Definition clean (t : pystr) : pystr :=
  Latin1.decode (Latin1.encode_replace t).

(** The calls create_pdf makes on its [FPDF()] object before [output], given
    the three texts it prints (each already passed through [clean]). *)
Definition pdf_layout (title notes transcript : pystr) : list pdf_call :=
  [ AddPage;
    SetFont "Arial" EmptyString 12;
    SetFont "Arial" "B" 16;
    Cell 0 10 title true "C";
    Ln 10;
    SetFont "Arial" "B" 12;
    Cell 0 10 (lit "AI Notes:") true EmptyString;
    SetFont "Arial" EmptyString 11;
    MultiCell 0 10 notes;
    Ln 10;
    SetFont "Arial" "B" 12;
    Cell 0 10 (lit "Transcript:") true EmptyString;
    SetFont "Arial" EmptyString 10;
    MultiCell 0 10 transcript ].

Definition create_pdf (title transcript notes : pystr) : result pybytes :=
  match fpdf_output env (pdf_layout (clean title) (clean notes) (clean transcript)) with
  | Reply buffer =>
      match Latin1.encode_strict buffer with
      | Some b => Ok b
      | None => Raise (PyException "UnicodeEncodeError" [])
      end
  | Failure cls msg => Raise (PyException cls msg)
  end.

(** [doc.save(path)] on an existing file: the bytes replace its contents. *)
Definition save_docx (items : list docx_item) (path : positive) : M unit :=
  fun w =>
    match docx_save env items with
    | Reply b =>
        (Ok tt,
         mkWorld (session_state w)
           (alter (fun f => mkFile (suffix f) b) path (files w)) (calls w) (screen w))
    | Failure cls msg => (Raise (PyException cls msg), w)
    end.

Definition create_docx (transcript notes : pystr) : M pybytes :=
  let doc :=
    [ AddHeading (lit "VerbaFlow Report") 0;
      AddHeading (lit "AI Notes") 1;
      AddParagraph notes;
      AddHeading (lit "Transcript") 1;
      AddParagraph transcript ] in
  do tmp <- named_temporary_file ".docx" [] in
  exec save_docx doc tmp in
  read_file tmp.

(** *** The UI: one run of the script *)

(** What the input widgets return in a run: the text fields hold their
    current text, [st.audio_input] gives the recording if there is one, and
    a button is [true] in the run its click triggers. *)
Record Inputs : Type := mkInputs {
  api_key : pystr;
  audio_value : option pybytes;
  click_transcribe : bool;
  click_summarize : bool;
  click_explain : bool;
  click_action_items : bool;
  click_mind_map : bool;
  user_q : pystr
}.

Definition settings_title : pystr := [9881; 65039] ++ lit " Settings".

Definition team_card : pystr :=
  [10] ++ lit "       " ++ [10] ++ lit "        <div class=" ++ [34] ++ lit "team-card" ++
  [34] ++ lit ">" ++ [10] ++ lit "            <b>Arvindsundaram S</b><br>" ++ [10] ++
  lit "            <i>AI Logic & Backend</i>" ++ [10] ++ lit "        </div>" ++ [10] ++
  lit "        " ++ [10] ++ lit "        ".

Definition page_header : pystr :=
  lit "<h1 style=" ++ [34] ++ lit "text-align: center;" ++ [34] ++ lit ">" ++
  [127897; 65039] ++ lit " VerbaFlow Pro</h1>".

Definition missing_key_warning : pystr :=
  [128072] ++ lit " Please enter the API Key in the sidebar.".

Definition transcribe_label : pystr := [128221] ++ lit " Transcribe (Identify Speakers)".
Definition summarize_label : pystr := [128221] ++ lit " Summarize".
Definition explain_label : pystr := [129504] ++ lit " Explain".
Definition action_items_label : pystr := [9989] ++ lit " Action Items".
Definition mind_map_label : pystr := [128506; 65039] ++ lit " Mind Map".

(** The task chosen by the four buttons of the knowledge engine: [task]
    starts as [None] and each clicked button assigns it in turn. *)
Definition chosen_task (i : Inputs) : option pystr :=
  let task := None in
  let task := if click_summarize i then Some (lit "Summarize") else task in
  let task := if click_explain i then Some (lit "Elaborate") else task in
  let task := if click_action_items i then Some (lit "Action Items") else task in
  let task := if click_mind_map i then Some (lit "Mind Map") else task in
  task.

(** Section 1 of the page: the recorder and the transcribe button. *)
Definition recording (i : Inputs) : M unit :=
  exec draw (Markdown (lit "### 1. Audio Source")) in
  exec draw (AudioInput (lit "Record Lecture")) in
  match audio_value i with
  | Some audio =>
      do tmp_path <- named_temporary_file ".wav" audio in
      exec draw (Button transcribe_label) in
      when (click_transcribe i)
        (exec draw (Spinner (lit "Agent is listening...")) in
         do transcript <- listen_and_transcribe tmp_path in
         exec session_set "transcript" transcript in
         raise RerunException)
  | None => ret tt
  end.

(** The result panel and the two download buttons. *)
Definition result_panel : M unit :=
  do task <- session_get "task" in
  exec draw (Markdown (lit "### Result: " ++ task)) in
  do result <- session_get "result" in
  exec (if eqb task (lit "Mind Map")
        then match st_mermaid env result with
             | Reply _ => draw (Mermaid result)
             | Failure _ _ => draw (Code result)
             end
        else draw (Info result)) in
  do transcript <- session_get "transcript" in
  do docx <- create_docx transcript result in
  exec draw (DownloadButton (lit "Download DOCX") docx (lit "notes.docx")) in
  do pdf <- lift (create_pdf (lit "VerbaFlow") transcript result) in
  draw (DownloadButton (lit "Download PDF") pdf (lit "notes.pdf")).

(** Sections 2 and 3 of the page and the chat box. *)
Definition transcript_and_actions (i : Inputs) : M unit :=
  exec draw (Markdown (lit "### 2. Transcript")) in
  do transcript <- session_get "transcript" in
  exec draw (Markdown (lit "<div class='agent-box'>" ++ transcript ++ lit "</div>")) in
  exec draw (Markdown (lit "### 3. Knowledge Engine")) in
  exec draw (Button summarize_label) in
  exec draw (Button explain_label) in
  exec draw (Button action_items_label) in
  exec draw (Button mind_map_label) in
  exec (match chosen_task i with
        | Some task =>
            exec draw (Spinner (lit "Agent is generating " ++ task ++ lit "...")) in
            do transcript <- session_get "transcript" in
            do result <- think_and_process transcript task in
            exec session_set "result" result in
            session_set "task" task
        | None => ret tt
        end) in
  do has_result <- session_has "result" in
  exec when has_result result_panel in
  exec draw (Markdown (lit "---")) in
  exec draw (Markdown (lit "### " ++ [128172] ++ lit " Chat with Audio")) in
  exec draw (TextInput (lit "Ask a question about the recording...")) in
  match user_q i with
  | [] => ret tt
  | _ :: _ =>
      exec draw (Spinner (lit "Thinking...")) in
      do transcript <- session_get "transcript" in
      do answer <- ask_question transcript (user_q i) in
      draw (Markdown (lit "<div class='chat-bubble'><b>Agent:</b> " ++ answer ++ lit "</div>"))
  end.

Definition main (i : Inputs) : M unit :=
  exec draw (Title settings_title) in
  exec draw (TextInput (lit "Gemini API Key")) in
  exec draw (Markdown (lit "---")) in
  exec draw (Subheader (lit "CREATOR")) in
  exec draw (Markdown team_card) in
  exec draw (Markdown page_header) in
  match api_key i with
  | [] => draw (Warning missing_key_warning)
  | _ :: _ =>
      exec recording i in
      do has_transcript <- session_has "transcript" in
      when has_transcript (transcript_and_actions i)
  end.

(** A script run starts from an empty page. *)
Definition script_run (i : Inputs) (w : World) : result unit * World :=
  main i (mkWorld (session_state w) (files w) (calls w) []).

(** The worlds a session can be in: it starts with an empty
    [st.session_state] and no request made, and every user interaction
    triggers a script run. *)
Inductive reachable : World -> Prop :=
| reachable_start (disk : gmap positive file) :
    reachable (mkWorld ∅ disk [] [])
| reachable_run (w : World) (i : Inputs) :
    reachable w -> reachable (snd (script_run i w)).

End Program.

(** The buttons that start an analysis and the buttons that export. *)
Definition analysis_labels : list pystr :=
  [summarize_label; explain_label; action_items_label; mind_map_label].

Definition is_analysis_button (x : widget) : bool :=
  match x with
  | Button label => bool_decide (label ∈ analysis_labels)
  | _ => false
  end.

Definition is_export_button (x : widget) : bool :=
  match x with
  | DownloadButton _ _ _ => true
  | _ => false
  end.

(** An analysis or an export action is on offer on the page. *)
Definition can_act (w : World) : bool :=
  existsb (fun x => is_analysis_button x || is_export_button x) (screen w).

(** The page offers some button (an action of any kind). *)
Definition is_button (x : widget) : bool :=
  match x with
  | Button _ | DownloadButton _ _ _ => true
  | _ => false
  end.

(** A property of the world that a computation keeps, whether it returns
    or raises. *)
Definition preserves {A : Type} (P : World -> Prop) (m : M A) : Prop :=
  forall w, P w -> P (snd (m w)).

Definition has_transcript (w : World) : Prop :=
  is_Some (session_state w !! "transcript").

Definition transcript_nonempty (w : World) : Prop :=
  forall t, session_state w !! "transcript" = Some t -> t <> [].

Definition no_action (w : World) : Prop := can_act w = false.

(** Properties that only speak of [st.session_state]. *)
Definition session_only (P : World -> Prop) : Prop :=
  forall w w', session_state w' = session_state w -> P w -> P w'.

(** The hosted model never replies with the empty text. *)
Definition never_silent (env : Env) : Prop :=
  forall h prompt a, generate_content env h prompt a <> Reply [].

(** The tasks the prompt dictionary knows. *)
Definition supported_tasks : list pystr :=
  [lit "Summarize"; lit "Elaborate"; lit "Action Items"; lit "Quiz"; lit "Mind Map"].

(** What create_pdf relies on from the FPDF library: for the layout it
    issues, texts within latin-1 are accepted and the buffer handed back by
    [output(dest='S')] is itself within latin-1. *)
Definition fpdf_accepts_latin1 (env : Env) : Prop :=
  forall title notes transcript : pystr,
    Forall Latin1.encodable title ->
    Forall Latin1.encodable notes ->
    Forall Latin1.encodable transcript ->
    exists buffer,
      fpdf_output env (pdf_layout title notes transcript) = Reply buffer /\
      Forall Latin1.encodable buffer.

(** The number of backticks a text starts with. *)
Fixpoint lead (s : pystr) : nat :=
  match s with
  | 96 :: s' => S (lead s')
  | _ => O
  end.

(** ** Stand-ins for the outside world, used to run the model *)

(** A toy PDF writer: the buffer is the text of the cells, in order. *)
Definition toy_fpdf (cs : list pdf_call) : outcome pystr :=
  Reply (List.concat (List.map (fun c =>
        match c with
        | Cell _ _ txt _ _ => txt
        | MultiCell _ _ txt => txt
        | _ => []
        end) cs)).

Definition toy_docx (items : list docx_item) : outcome pybytes :=
  Reply (Latin1.encode_replace (List.concat (List.map (fun x =>
        match x with
        | AddHeading t _ => t
        | AddParagraph t => t
        end) items))).

(** A model that answers every request with the same text. *)
Definition constant_env (reply : pystr) : Env :=
  mkEnv (fun _ _ _ => Reply 1) (fun _ _ _ => Reply reply) toy_fpdf toy_docx
        (fun _ => Reply tt).

(** A model out of quota: every request raises. *)
Definition quota_error : exn :=
  PyException "ResourceExhausted" (lit "429 quota exceeded").

Definition failing_env : Env :=
  mkEnv (fun _ _ _ => Failure "ResourceExhausted" (lit "429 quota exceeded"))
        (fun _ _ _ => Failure "ResourceExhausted" (lit "429 quota exceeded"))
        toy_fpdf toy_docx (fun _ => Reply tt).

Definition empty_world : World := mkWorld ∅ ∅ [] [].

(** A session with a key entered and a short recording made: the run in
    which the transcribe button is clicked, and a run with no click. *)
Definition recorded_audio : pybytes := ["R"%byte; "I"%byte; "F"%byte; "F"%byte].

Definition transcribe_inputs : Inputs :=
  mkInputs (lit "key") (Some recorded_audio) true false false false false [].

Definition idle_inputs : Inputs :=
  mkInputs (lit "key") (Some recorded_audio) false false false false false [].

(** ** Further notions used to state what the code does *)

(** The tasks the four buttons of the knowledge engine can start. *)
Definition offered_tasks : list pystr :=
  [lit "Summarize"; lit "Elaborate"; lit "Action Items"; lit "Mind Map"].

(** The prompt of ask_question. *)
Definition question_prompt (transcript question : pystr) : pystr :=
  lit "Context: " ++ transcript ++ nl ++ nl ++ lit "Question: " ++ question ++
  nl ++ nl ++ lit "Answer concisely based on context:".

(** A model whose upload endpoint is down while generation would answer. *)
Definition upload_down_env : Env :=
  mkEnv (fun _ _ _ => Failure "ServiceUnavailable" (lit "503 upload failed"))
        (fun _ _ _ => Reply (lit "Speaker 1: Hello."))
        toy_fpdf toy_docx (fun _ => Reply tt).

(** The content create_docx puts in the document. *)
Definition docx_items (transcript notes : pystr) : list docx_item :=
  [ AddHeading (lit "VerbaFlow Report") 0;
    AddHeading (lit "AI Notes") 1;
    AddParagraph notes;
    AddHeading (lit "Transcript") 1;
    AddParagraph transcript ].


(** Every file of [disk] is still there, with the same content. *)
Definition keeps_files (disk : gmap positive file) (w : World) : Prop :=
  disk ⊆ files w.

(** A computation that makes no request to the hosted model. *)
Definition silent {A : Type} (m : M A) : Prop :=
  forall w, calls (snd (m w)) = calls w.

(** A computation that makes at most [n] requests to the hosted model. *)
Definition calls_le {A : Type} (n : nat) (m : M A) : Prop :=
  forall w, exists more, calls (snd (m w)) = more ++ calls w /\ (length more <= n)%nat.

(** A run in which a task button is clicked, and one with a question typed
    in the chat box. *)
Definition summarize_inputs : Inputs :=
  mkInputs (lit "key") None false true false false false [].

Definition question_inputs : Inputs :=
  mkInputs (lit "key") None false false false false false (lit "Who spoke?").

(** What the session holds is coherent: a result comes with the task that
    produced it and with a transcript, the task is one the buttons offer,
    and no other key is ever stored. *)
Definition session_consistent (w : World) : Prop :=
  (is_Some (session_state w !! "result") <-> is_Some (session_state w !! "task")) /\
  (is_Some (session_state w !! "result") -> is_Some (session_state w !! "transcript")) /\
  (forall t, session_state w !! "task" = Some t -> t ∈ offered_tasks) /\
  (forall k, is_Some (session_state w !! k) -> k ∈ ["transcript"; "result"; "task"]).

(** The stored result has no run of three backticks. *)
Definition result_fence_free (w : World) : Prop :=
  forall r, session_state w !! "result" = Some r -> ~ substring fence r.

(** ** Facts about Python strings *)

Lemma fence_unfold : fence = [96; 96; 96].
Proof. reflexivity. Qed.

Lemma starts_with_spec (p s : pystr) :
  starts_with p s = true <-> exists t, s = p ++ t.
Proof.
  revert s; induction p as [|a p IH]; intros s; simpl.
  - split; [intros _; by exists s | done].
  - destruct s as [|b s].
    + split; [done | intros [t Ht]; discriminate Ht].
    + rewrite andb_true_iff, N.eqb_eq, IH. split.
      * intros [-> [t ->]]. by exists t.
      * intros [t Ht]. injection Ht as -> ->. split; [done | by exists t].
Qed.

Lemma contains_spec (sub s : pystr) :
  contains sub s = true <-> substring sub s.
Proof.
  unfold substring. induction s as [|c s IH]; simpl.
  - rewrite orb_false_r, starts_with_spec. split.
    + intros [t Ht]. by exists [], t.
    + intros [pre [post H]]. symmetry in H.
      apply app_eq_nil in H as [-> H]. apply app_eq_nil in H as [-> ->].
      by exists [].
  - rewrite orb_true_iff, starts_with_spec, IH. split.
    + intros [[t Ht] | [pre [post H]]].
      * by exists [], t.
      * exists (c :: pre), post. by rewrite H.
    + intros [[|x pre] [post H]].
      * left. by exists post.
      * right. injection H as _ H. by exists pre, post.
Qed.

Lemma substring_trans (a b c : pystr) :
  substring a b -> substring b c -> substring a c.
Proof.
  intros [p1 [q1 ->]] [p2 [q2 ->]].
  exists (p2 ++ p1), (q1 ++ q2). by rewrite <- !app_assoc.
Qed.

Lemma lstrip_suffix (s : pystr) : exists pre, s = pre ++ lstrip s.
Proof.
  induction s as [|c s [pre IH]]; simpl.
  - by exists [].
  - destruct (isspace c).
    + exists (c :: pre). simpl. by rewrite <- IH.
    + by exists [].
Qed.

Lemma strip_substring (s : pystr) : substring (strip s) s.
Proof.
  unfold strip, rstrip.
  destruct (lstrip_suffix s) as [pre Hpre].
  destruct (lstrip_suffix (rev (lstrip s))) as [suf Hsuf].
  exists pre, (rev suf).
  rewrite <- rev_app_distr, <- Hsuf, rev_involutive. exact Hpre.
Qed.

Lemma lead_cons (c : N) (s : pystr) :
  lead (c :: s) = if c =? 96 then S (lead s) else O.
Proof.
  destruct (N.eqb_spec c 96) as [-> | Hc]; [done |].
  simpl. destruct c as [|p]; [done |].
  repeat (destruct p as [p|p|]; try done).
Qed.

Lemma starts_with_fence_lead (s : pystr) :
  starts_with [96; 96; 96] s = true <-> (3 <= lead s)%nat.
Proof.
  destruct s as [|a [|b [|c s]]]; cbn [starts_with];
    rewrite ?lead_cons, ?(N.eqb_sym 96);
    repeat match goal with |- context [?x =? 96] => destruct (x =? 96) end;
    cbn [andb lead]; split; (done || lia).
Qed.

Lemma replace_fence_hit (s : pystr) :
  replace (96 :: 96 :: 96 :: s) fence [] = replace s fence [].
Proof. reflexivity. Qed.

Lemma replace_fence_miss (c : N) (s : pystr) :
  starts_with [96; 96; 96] (c :: s) = false ->
  replace (c :: s) fence [] = c :: replace s fence [].
Proof.
  intros H. rewrite fence_unfold. unfold replace.
  change (replace_from [96; 96; 96] [] 0 (c :: s)) with
    (if starts_with [96; 96; 96] (c :: s)
     then [] ++ replace_from [96; 96; 96] [] 2 s
     else c :: replace_from [96; 96; 96] [] 0 s).
  by rewrite H.
Qed.

(** After [.replace('```', '')] no run of three backticks is left, and the
    result starts with no more backticks than the text did. *)
Lemma replace_fence_clean (n : nat) (s : pystr) :
  (length s <= n)%nat ->
  contains [96; 96; 96] (replace s fence []) = false /\
  (lead (replace s fence []) <= lead s)%nat.
Proof.
  revert s; induction n as [|n IH]; intros s Hlen.
  - destruct s; [by split | simpl in Hlen; lia].
  - destruct s as [|c s]; [by split |].
    destruct (starts_with [96; 96; 96] (c :: s)) eqn:Hsw.
    + apply starts_with_spec in Hsw as [t Ht]. simpl in Ht. rewrite Ht.
      rewrite replace_fence_hit.
      assert (Hs : (length t <= n)%nat).
      { rewrite Ht in Hlen. simpl in Hlen. lia. }
      destruct (IH t Hs) as [Hc Hl]. split; [exact Hc |].
      change (lead (96 :: 96 :: 96 :: t)) with (S (S (S (lead t)))). lia.
    + rewrite (replace_fence_miss c s Hsw).
      assert (Hs : (length s <= n)%nat) by (simpl in Hlen; lia).
      destruct (IH s Hs) as [Hc Hl].
      assert (Hle : (lead (c :: replace s fence []) <= lead (c :: s))%nat).
      { rewrite !lead_cons. destruct (c =? 96); lia. }
      split; [| exact Hle].
      change (contains [96; 96; 96] (c :: replace s fence []))
        with (starts_with [96; 96; 96] (c :: replace s fence [])
              || contains [96; 96; 96] (replace s fence [])).
      rewrite Hc, orb_false_r.
      destruct (starts_with [96; 96; 96] (c :: replace s fence [])) eqn:Hr; [| done].
      apply starts_with_fence_lead in Hr.
      assert (Hn : ~ (3 <= lead (c :: s))%nat).
      { rewrite <- starts_with_fence_lead. by rewrite Hsw. }
      lia.
Qed.

Lemma strip_fences_clean (reply : pystr) : ~ substring fence (strip_fences reply).
Proof.
  intros H. unfold strip_fences in H.
  pose proof (substring_trans _ _ _ H (strip_substring _)) as H'.
  apply contains_spec in H'. rewrite fence_unfold in H' at 1.
  destruct (replace_fence_clean _ (replace reply fence_mermaid []) (le_n _)) as [Hc _].
  congruence.
Qed.

(** ** The prompt builder *)

Lemma substring_middle (pre s post : pystr) : substring s (pre ++ s ++ post).
Proof. by exists pre, post. Qed.

Lemma substring_end (pre s : pystr) : substring s (pre ++ s).
Proof. exists pre, []. by rewrite app_nil_r. Qed.

(** The prompt of each known task, as the text around the transcript. *)
Lemma build_prompt_supported (text task : pystr) :
  task ∈ supported_tasks ->
  exists pre post, build_prompt text task = pre ++ text ++ post.
Proof.
  unfold supported_tasks. intros H.
  repeat (apply elem_of_cons in H as [-> | H]); [.. | by apply elem_of_nil in H].
  - exists (lit "Create a comprehensive bullet-point summary:" ++ nl ++ nl), [].
    by rewrite app_nil_r.
  - exists (lit "Explain the concepts simply for a beginner:" ++ nl ++ nl), [].
    by rewrite app_nil_r.
  - exists (lit "Identify tasks and assignments as a checklist:" ++ nl ++ nl), [].
    by rewrite app_nil_r.
  - exists (lit "Generate 3 quiz questions with answers at the bottom:" ++ nl ++ nl), [].
    by rewrite app_nil_r.
  - exists
      (nl ++ indent ++ lit "Create a Mermaid.js flowchart code to visualize connections." ++
       nl ++ indent ++ lit "- Start with 'graph TD'." ++
       nl ++ indent ++ lit "- Use short node labels." ++
       nl ++ indent ++ lit "- Do NOT use markdown code blocks. Return raw code only." ++
       nl ++ indent ++ lit "Text: "), (nl ++ indent).
    reflexivity.
Qed.

Lemma think_and_process_calls (env : Env) (w : World) (text task : pystr) :
  calls (snd (think_and_process env text task w))
    = Generate (build_prompt text task) None :: calls w.
Proof.
  unfold think_and_process, bind, gw_generate.
  by destruct (generate_content env (calls w) (build_prompt text task) None).
Qed.

(** C1: for every non-empty transcript and every supported task
    (Summarize, Elaborate, Action Items, Quiz, Mind Map), think_and_process
    sends the hosted model a prompt that contains the whole transcript,
    unchanged, as a contiguous substring. *)
Theorem prompt_contains_transcript (env : Env) (w : World) (text task : pystr) :
  text <> [] ->
  task ∈ supported_tasks ->
  exists prompt,
    calls (snd (think_and_process env text task w)) = Generate prompt None :: calls w /\
    substring text prompt.
Proof.
  intros _ Htask. exists (build_prompt text task).
  split; [apply think_and_process_calls |].
  destruct (build_prompt_supported text task Htask) as [pre [post ->]].
  apply substring_middle.
Qed.

Lemma prompt_contains_transcript_witness :
  exists prompt,
    calls (snd (think_and_process (constant_env (lit "ok")) (lit "Speaker 1: Hello.")
                  (lit "Quiz") empty_world))
      = Generate prompt None :: calls empty_world /\
    substring (lit "Speaker 1: Hello.") prompt.
Proof.
  apply (prompt_contains_transcript (constant_env (lit "ok")) empty_world
           (lit "Speaker 1: Hello.") (lit "Quiz")).
  - discriminate.
  - unfold supported_tasks. do 3 apply list_elem_of_further. apply list_elem_of_here.
Defined.

(** C9: for the transcript "Speaker 1: Hello. Speaker 2: Hi." and the task
    "Action Items", the prompt sent by think_and_process contains the
    instruction "Identify tasks and assignments as a checklist" and, later
    in the string, the transcript. *)
Theorem action_items_prompt_scenario (env : Env) (w : World) :
  let transcript := lit "Speaker 1: Hello. Speaker 2: Hi." in
  let instruction := lit "Identify tasks and assignments as a checklist" in
  exists prompt pre mid post,
    calls (snd (think_and_process env transcript (lit "Action Items") w))
      = Generate prompt None :: calls w /\
    prompt = build_prompt transcript (lit "Action Items") /\
    prompt = pre ++ instruction ++ mid ++ transcript ++ post.
Proof.
  intros transcript instruction.
  exists (build_prompt transcript (lit "Action Items")), [], (lit ":" ++ nl ++ nl), [].
  split; [apply think_and_process_calls | split; reflexivity].
Qed.

(** ** Post-processing of the reply *)

Lemma think_and_process_reply (env : Env) (w : World) (text task reply : pystr) :
  generate_content env (calls w) (build_prompt text task) None = Reply reply ->
  fst (think_and_process env text task w) = Ok (strip_fences reply).
Proof.
  intros H. unfold think_and_process, bind, gw_generate. by rewrite H.
Qed.

(** C5: whatever the model replies to the Mind Map task, with or without
    triple-backtick fence markers, the result returned by think_and_process
    contains no run of three backticks. *)
Theorem mind_map_result_has_no_fence (env : Env) (w : World) (text reply : pystr) :
  generate_content env (calls w) (build_prompt text (lit "Mind Map")) None = Reply reply ->
  exists r,
    fst (think_and_process env text (lit "Mind Map") w) = Ok r /\
    ~ substring (lit "```") r.
Proof.
  intros H. exists (strip_fences reply). split.
  - by apply think_and_process_reply.
  - apply strip_fences_clean.
Qed.

Lemma mind_map_result_has_no_fence_witness :
  let reply := lit "```mermaid" ++ nl ++ lit "graph TD" ++ nl ++ lit "A --> B" ++ nl ++ lit "```" in
  exists r,
    fst (think_and_process (constant_env reply) (lit "Speaker 1: Hello.")
           (lit "Mind Map") empty_world) = Ok r /\
    ~ substring (lit "```") r.
Proof.
  intros reply.
  apply (mind_map_result_has_no_fence (constant_env reply) empty_world
           (lit "Speaker 1: Hello.") reply).
  reflexivity.
Defined.

(** C10: the fence stripping (remove "```mermaid", then "```", then trim
    surrounding whitespace) is applied to the reply of every task, not only
    Mind Map; so the result of any task, Summarize included, comes back
    with its triple-backtick markers removed. *)
Theorem fence_stripping_applies_to_every_task
    (env : Env) (w : World) (text task reply : pystr) :
  generate_content env (calls w) (build_prompt text task) None = Reply reply ->
  fst (think_and_process env text task w)
    = Ok (strip (replace (replace reply (lit "```mermaid") []) (lit "```") [])) /\
  ~ substring (lit "```") (strip (replace (replace reply (lit "```mermaid") []) (lit "```") [])).
Proof.
  intros H. split.
  - by apply think_and_process_reply.
  - apply strip_fences_clean.
Qed.

Lemma fence_stripping_applies_to_every_task_witness :
  let reply := lit "Use ```pip install x``` first. " in
  fst (think_and_process (constant_env reply) (lit "Speaker 1: Hello.")
         (lit "Summarize") empty_world)
    = Ok (lit "Use pip install x first.") /\
  ~ substring (lit "```") (lit "Use pip install x first.").
Proof.
  intros reply.
  apply (fence_stripping_applies_to_every_task (constant_env reply) empty_world
           (lit "Speaker 1: Hello.") (lit "Summarize") reply).
  reflexivity.
Defined.

(** ** Failures of the hosted model *)

(** listen_and_transcribe never raises: a failure of the upload or of the
    generation comes back as the text "Agent Error: ..." *)
Lemma listen_and_transcribe_returns (env : Env) (p : positive) (w : World) :
  exists t,
    fst (listen_and_transcribe env p w) = Ok t /\
    ((exists h a, generate_content env h transcribe_prompt a = Reply t) \/
     (exists cls msg, t = lit "Agent Error: " ++ msg /\
        (upload_file env (calls w) p (files w !! p) = Failure cls msg \/
         exists h a, generate_content env h transcribe_prompt a = Failure cls msg))).
Proof.
  unfold listen_and_transcribe, try_except, bind, gw_upload, gw_generate, ret.
  cbn [calls files session_state screen].
  destruct (upload_file env (calls w) p (files w !! p)) as [a | cls msg] eqn:Hu;
    cbn [to_result].
  - destruct (generate_content env (Upload p :: calls w) transcribe_prompt (Some a))
      as [t | cls msg] eqn:Hg; cbn [to_result].
    + exists t. split; [done |]. left. eauto.
    + exists (lit "Agent Error: " ++ msg). split; [done |]. right.
      exists cls, msg. split; [done |]. right. eauto.
  - exists (lit "Agent Error: " ++ msg). split; [done |]. right.
    exists cls, msg. split; [done |]. by left.
Qed.

(** C2 (where the code departs from it): with the hosted model out of quota,
    listen_and_transcribe returns the failure as text, while
    think_and_process and ask_question raise the client's exception. *)
Theorem gateway_failure_escapes_analysis_and_chat :
  fst (listen_and_transcribe failing_env 1%positive empty_world)
    = Ok (lit "Agent Error: 429 quota exceeded") /\
  fst (think_and_process failing_env (lit "Speaker 1: Hello.") (lit "Summarize") empty_world)
    = Raise quota_error /\
  fst (ask_question failing_env (lit "Speaker 1: Hello.") (lit "Who spoke?") empty_world)
    = Raise quota_error.
Proof. repeat split. Qed.

(** think_and_process and ask_question pass on any failure of the model. *)
Lemma think_and_process_raises (env : Env) (w : World) (text task : pystr)
    (cls : string) (msg : pystr) :
  generate_content env (calls w) (build_prompt text task) None = Failure cls msg ->
  fst (think_and_process env text task w) = Raise (PyException cls msg).
Proof.
  intros H. unfold think_and_process, bind, gw_generate. by rewrite H.
Qed.

(** ** The PDF exporter *)

(** [clean] keeps the code points below 256 and puts ['?'] (63) for the
    others. *)
Lemma clean_spec (t : pystr) :
  clean t = List.map (fun c => if c <? 256 then c else 63) t.
Proof.
  unfold clean, Latin1.decode, Latin1.encode_replace. rewrite List.map_map.
  apply List.map_ext. intros c.
  destruct (Byte.of_N c) as [b|] eqn:Hb.
  - apply Byte.to_of_N in Hb. rewrite Hb.
    pose proof (Byte.to_N_bounded b) as Hle. rewrite Hb in Hle.
    destruct (N.ltb_spec c 256); [done | lia].
  - apply Byte.of_N_None_iff in Hb.
    destruct (N.ltb_spec c 256); [lia | done].
Qed.

Lemma clean_encodable (t : pystr) : Forall Latin1.encodable (clean t).
Proof.
  rewrite clean_spec. apply Forall_forall. intros c Hc.
  apply list_elem_of_In, List.in_map_iff in Hc as [x [<- _]].
  unfold Latin1.encodable. destruct (N.ltb_spec x 256); lia.
Qed.

Lemma encode_strict_total (t : pystr) :
  Forall Latin1.encodable t -> exists b, Latin1.encode_strict t = Some b.
Proof.
  induction 1 as [|c t Hc _ [b IH]]; simpl.
  - by exists [].
  - destruct (Byte.of_N c) as [x|] eqn:Hx.
    + rewrite IH. by exists (x :: b).
    + apply Byte.of_N_None_iff in Hx. unfold Latin1.encodable in Hc. lia.
Qed.

(** C8: for every title, transcript and notes, also with characters outside
    latin-1, create_pdf does not fail: FPDF is handed the three texts with
    each such character replaced by '?', and the buffer it gives back is
    returned as bytes.  FPDF itself is taken to accept latin-1 text. *)
Theorem create_pdf_replaces_and_returns (env : Env) (title transcript notes : pystr) :
  fpdf_accepts_latin1 env ->
  let placeholder := List.map (fun c => if c <? 256 then c else 63) in
  exists buffer b,
    fpdf_output env
      (pdf_layout (placeholder title) (placeholder notes) (placeholder transcript))
      = Reply buffer /\
    Latin1.encode_strict buffer = Some b /\
    create_pdf env title transcript notes = Ok b.
Proof.
  intros Hlib placeholder. unfold create_pdf.
  destruct (Hlib (clean title) (clean notes) (clean transcript)
              (clean_encodable _) (clean_encodable _) (clean_encodable _))
    as [buffer [Hout Hbuf]].
  destruct (encode_strict_total buffer Hbuf) as [b Hb].
  exists buffer, b. unfold placeholder. rewrite <- !clean_spec.
  split; [exact Hout |]. split; [exact Hb |].
  by rewrite Hout, Hb.
Qed.

Lemma lit_encodable (s : string) : Forall Latin1.encodable (lit s).
Proof.
  unfold lit. induction s as [|a s IH]; simpl; constructor; [| exact IH].
  apply N_ascii_bounded.
Qed.

Lemma toy_fpdf_accepts_latin1 (reply : pystr) : fpdf_accepts_latin1 (constant_env reply).
Proof.
  intros title notes transcript Ht Hn Htr. eexists. split; [reflexivity |].
  unfold pdf_layout. cbn [List.map List.concat app].
  repeat (apply Forall_app; split); auto using lit_encodable.
Qed.

Lemma create_pdf_replaces_and_returns_witness :
  exists buffer b,
    fpdf_output (constant_env [])
      (pdf_layout [78; 111; 116; 101; 115; 63] [63; 53] [110; 97; 239; 118; 101; 32; 63])
      = Reply buffer /\
    Latin1.encode_strict buffer = Some b /\
    create_pdf (constant_env []) [78; 111; 116; 101; 115; 8230] [110; 97; 239; 118; 101; 32; 128578]
      [8364; 53] = Ok b.
Proof.
  apply (create_pdf_replaces_and_returns (constant_env [])
           [78; 111; 116; 101; 115; 8230] [110; 97; 239; 118; 101; 32; 128578] [8364; 53]).
  apply toy_fpdf_accepts_latin1.
Defined.

(** ** The API key gate *)

(** C7: with an empty API key the run stops at the warning asking for the
    key: the warning is on the page, no button (no action) is, the run ends
    normally, and no request is made to the hosted model; the session and
    the disk are untouched. *)
Theorem empty_key_blocks_every_action (env : Env) (i : Inputs) (w : World) :
  api_key i = [] ->
  let w' := snd (script_run env i w) in
  fst (script_run env i w) = Ok tt /\
  Warning missing_key_warning ∈ screen w' /\
  (forall x, x ∈ screen w' -> is_button x = false) /\
  calls w' = calls w /\
  session_state w' = session_state w /\
  files w' = files w.
Proof.
  intros Hkey w'. subst w'. unfold script_run, main. rewrite Hkey.
  cbn [bind draw fst snd screen calls session_state files].
  repeat split.
  - apply list_elem_of_here.
  - intros x Hx.
    repeat (apply elem_of_cons in Hx as [-> | Hx]); try done.
    by apply elem_of_nil in Hx.
Qed.

Lemma empty_key_blocks_every_action_witness :
  let i := mkInputs [] (Some ["R"%byte; "I"%byte; "F"%byte; "F"%byte]) true true false false false
             (lit "Who spoke?") in
  let w' := snd (script_run failing_env i empty_world) in
  fst (script_run failing_env i empty_world) = Ok tt /\
  Warning missing_key_warning ∈ screen w' /\
  (forall x, x ∈ screen w' -> is_button x = false) /\
  calls w' = calls empty_world /\
  session_state w' = session_state empty_world /\
  files w' = files empty_world.
Proof.
  intros i.
  apply (empty_key_blocks_every_action failing_env i empty_world).
  reflexivity.
Defined.

(** ** Reasoning about script runs *)

Section Preservation.

Context {A B : Type} (P : World -> Prop).

Lemma preserves_ret (a : A) : preserves P (ret a).
Proof. by intros w Hw. Qed.

Lemma preserves_raise (e : exn) : preserves P (@raise A e).
Proof. by intros w Hw. Qed.

Lemma preserves_lift (r : result A) : preserves P (lift r).
Proof. by intros w Hw. Qed.

Lemma preserves_bind (m : M A) (k : A -> M B) :
  preserves P m -> (forall a, preserves P (k a)) -> preserves P (bind m k).
Proof.
  intros Hm Hk w Hw. unfold bind. specialize (Hm w Hw).
  destruct (m w) as [[a | e] w1]; simpl in Hm; [by apply Hk | done].
Qed.

(** The continuation may rely on what the first computation returns. *)
Lemma preserves_bind_post (Q : A -> Prop) (m : M A) (k : A -> M B) :
  preserves P m ->
  (forall w a, fst (m w) = Ok a -> Q a) ->
  (forall a, Q a -> preserves P (k a)) ->
  preserves P (bind m k).
Proof.
  intros Hm HQ Hk w Hw. unfold bind. specialize (Hm w Hw). specialize (HQ w).
  destruct (m w) as [[a | e] w1]; simpl in Hm, HQ; [| done].
  apply Hk; [by apply HQ | done].
Qed.

Lemma preserves_try_except (body : M A) (handler : exn -> M A) :
  preserves P body -> (forall e, preserves P (handler e)) ->
  preserves P (try_except body handler).
Proof.
  intros Hb Hh w Hw. unfold try_except. specialize (Hb w Hw).
  destruct (body w) as [[a | [cls msg |]] w1]; simpl in Hb; [done | by apply Hh | done].
Qed.

End Preservation.

Lemma preserves_when (P : World -> Prop) (b : bool) (m : M unit) :
  preserves P m -> preserves P (when b m).
Proof. intros Hm. destruct b; [exact Hm | apply preserves_ret]. Qed.

Lemma has_transcript_session_only : session_only has_transcript.
Proof. intros w w' H. unfold has_transcript. by rewrite H. Qed.

Lemma transcript_nonempty_session_only : session_only transcript_nonempty.
Proof. intros w w' H. unfold transcript_nonempty. by rewrite H. Qed.

Section SessionOnly.

Variable env : Env.
Variable P : World -> Prop.
Hypothesis HP : session_only P.

Lemma preserves_draw (x : widget) : preserves P (draw x).
Proof. intros w. by apply HP. Qed.

Lemma preserves_session_has (k : string) : preserves P (session_has k).
Proof. by intros w Hw. Qed.

Lemma preserves_session_get (k : string) : preserves P (session_get k).
Proof. intros w Hw. unfold session_get. by destruct (session_state w !! k). Qed.

Lemma preserves_named_temporary_file (sfx : string) (data : pybytes) :
  preserves P (named_temporary_file sfx data).
Proof. intros w. by apply HP. Qed.

Lemma preserves_read_file (p : positive) : preserves P (read_file p).
Proof. intros w Hw. unfold read_file. by destruct (files w !! p). Qed.

Lemma preserves_save_docx (items : list docx_item) (p : positive) :
  preserves P (save_docx env items p).
Proof.
  intros w Hw. unfold save_docx.
  destruct (docx_save env items); [by apply (HP w) | done].
Qed.

Lemma preserves_gw_upload (p : positive) : preserves P (gw_upload env p).
Proof. intros w. by apply HP. Qed.

Lemma preserves_gw_generate (prompt : pystr) (a : option N) :
  preserves P (gw_generate env prompt a).
Proof. intros w. by apply HP. Qed.

Lemma preserves_listen_and_transcribe (p : positive) :
  preserves P (listen_and_transcribe env p).
Proof.
  apply preserves_try_except; [| intros e; apply preserves_ret].
  apply preserves_bind; [apply preserves_gw_upload | intros a].
  apply preserves_bind; [apply preserves_gw_generate | intros t].
  apply preserves_ret.
Qed.

Lemma preserves_think_and_process (text task : pystr) :
  preserves P (think_and_process env text task).
Proof.
  apply preserves_bind; [apply preserves_gw_generate | intros t; apply preserves_ret].
Qed.

Lemma preserves_ask_question (transcript question : pystr) :
  preserves P (ask_question env transcript question).
Proof.
  apply preserves_bind; [apply preserves_gw_generate | intros t; apply preserves_ret].
Qed.

Lemma preserves_create_docx (transcript notes : pystr) :
  preserves P (create_docx env transcript notes).
Proof.
  apply preserves_bind; [apply preserves_named_temporary_file | intros p].
  apply preserves_bind; [apply preserves_save_docx | intros _].
  apply preserves_read_file.
Qed.

End SessionOnly.

Lemma session_set_has_transcript (k : string) (v : pystr) :
  preserves has_transcript (session_set k v).
Proof.
  intros w Hw. unfold has_transcript, session_set. cbn [snd session_state].
  apply lookup_insert_is_Some. destruct (decide (k = "transcript")); auto.
Qed.

Lemma session_set_other_nonempty (k : string) (v : pystr) :
  k <> "transcript" -> preserves transcript_nonempty (session_set k v).
Proof.
  intros Hk w Hw t. unfold session_set. cbn [snd session_state].
  rewrite lookup_insert_ne by done. apply Hw.
Qed.

Lemma session_set_transcript_nonempty (v : pystr) :
  v <> [] -> preserves transcript_nonempty (session_set "transcript" v).
Proof.
  intros Hv w Hw t. unfold session_set. cbn [snd session_state].
  rewrite lookup_insert_eq. by intros [= <-].
Qed.

(** Everything below the transcript guard only adds the keys "result" and
    "task" to the session. *)
Lemma preserves_transcript_and_actions (env : Env) (i : Inputs) (P : World -> Prop) :
  session_only P ->
  (forall v, preserves P (session_set "result" v)) ->
  (forall v, preserves P (session_set "task" v)) ->
  preserves P (transcript_and_actions env i).
Proof.
  intros HP Hres Htask.
  assert (Hpanel : preserves P (result_panel env)).
  { unfold result_panel.
    repeat first
      [ by apply preserves_draw
      | by apply preserves_session_get
      | by apply preserves_create_docx
      | apply preserves_lift
      | match goal with |- preserves _ (if ?b then _ else _) => destruct b end
      | match goal with |- preserves _ (match ?x with _ => _ end) => destruct x end
      | apply preserves_bind; [| intros ?] ]. }
  unfold transcript_and_actions.
  repeat first
    [ by apply preserves_draw
    | by apply preserves_session_get
    | by apply preserves_session_has
    | by apply preserves_think_and_process
    | by apply preserves_ask_question
    | by apply preserves_when
    | apply preserves_ret
    | apply Hres
    | apply Htask
    | match goal with |- preserves _ (match ?x with _ => _ end) => destruct x end
    | apply preserves_bind; [| intros ?] ].
Qed.

(** *** The transcript is never empty when the model never replies with
    the empty text *)

Lemma recording_transcript_nonempty (env : Env) (i : Inputs) :
  never_silent env -> preserves transcript_nonempty (recording env i).
Proof.
  intros Hns. unfold recording.
  pose proof transcript_nonempty_session_only as HP.
  apply preserves_bind; [by apply preserves_draw | intros _].
  apply preserves_bind; [by apply preserves_draw | intros _].
  destruct (audio_value i) as [audio |]; [| apply preserves_ret].
  apply preserves_bind; [by apply preserves_named_temporary_file | intros p].
  apply preserves_bind; [by apply preserves_draw | intros _].
  apply preserves_when.
  apply preserves_bind; [by apply preserves_draw | intros _].
  apply (preserves_bind_post _ (fun t => t <> [])).
  - by apply preserves_listen_and_transcribe.
  - intros w t Ht.
    destruct (listen_and_transcribe_returns env p w) as [t' [Ht' Hwhy]].
    rewrite Ht in Ht'. injection Ht' as <-.
    destruct Hwhy as [[h [a Hg]] | [cls [msg [-> _]]]]; [| done].
    intros ->. by apply (Hns h transcribe_prompt a).
  - intros t Ht.
    apply preserves_bind; [by apply session_set_transcript_nonempty | intros _].
    apply preserves_raise.
Qed.

Lemma main_transcript_nonempty (env : Env) (i : Inputs) :
  never_silent env -> preserves transcript_nonempty (main env i).
Proof.
  intros Hns. unfold main.
  pose proof transcript_nonempty_session_only as HP.
  do 6 (apply preserves_bind; [by apply preserves_draw | intros _]).
  destruct (api_key i); [by apply preserves_draw |].
  apply preserves_bind; [by apply recording_transcript_nonempty | intros _].
  apply preserves_bind; [by apply preserves_session_has | intros b].
  apply preserves_when, preserves_transcript_and_actions; [done | |];
    intros v; by apply session_set_other_nonempty.
Qed.

(** *** Actions are offered only below the transcript guard *)

Lemma draw_no_action (x : widget) :
  is_analysis_button x || is_export_button x = false ->
  preserves no_action (draw x).
Proof.
  intros Hx w Hw. unfold no_action, can_act, draw in *. cbn [snd screen existsb].
  by rewrite Hx, Hw.
Qed.

Lemma screen_kept_no_action {A : Type} (m : M A) :
  (forall w, screen (snd (m w)) = screen w) -> preserves no_action m.
Proof. intros H w Hw. unfold no_action, can_act in *. by rewrite H. Qed.

Lemma listen_and_transcribe_screen (env : Env) (p : positive) (w : World) :
  screen (snd (listen_and_transcribe env p w)) = screen w.
Proof.
  unfold listen_and_transcribe, try_except, bind, gw_upload, gw_generate, ret.
  cbn [calls files session_state screen].
  destruct (upload_file env (calls w) p (files w !! p)); cbn [to_result]; [| done].
  by destruct (generate_content env _ _ _).
Qed.

Lemma recording_no_action (env : Env) (i : Inputs) :
  preserves no_action (recording env i).
Proof.
  unfold recording.
  apply preserves_bind; [by apply draw_no_action | intros _].
  apply preserves_bind; [by apply draw_no_action | intros _].
  destruct (audio_value i) as [audio |]; [| apply preserves_ret].
  apply preserves_bind; [by apply screen_kept_no_action | intros p].
  apply preserves_bind; [by apply draw_no_action | intros _].
  apply preserves_when.
  apply preserves_bind; [by apply draw_no_action | intros _].
  apply preserves_bind;
    [apply screen_kept_no_action, listen_and_transcribe_screen | intros t].
  apply preserves_bind; [by apply screen_kept_no_action | intros _].
  apply preserves_raise.
Qed.

Lemma draw_then_no_action {A : Type} (x : widget) (k : M A) (R : World -> Prop) :
  is_analysis_button x || is_export_button x = false ->
  (forall w, no_action w -> R (snd (k w))) ->
  forall w, no_action w -> R (snd ((exec draw x in k) w)).
Proof.
  intros Hx Hk w Hw. unfold bind, draw. apply Hk.
  by apply (draw_no_action x Hx w).
Qed.

Lemma guarded_by_transcript {A : Type} (m : M A) (body : M unit) :
  preserves no_action m ->
  preserves has_transcript body ->
  forall w, no_action w ->
    let w' := snd ((exec m in do has <- session_has "transcript" in when has body) w) in
    no_action w' \/ has_transcript w'.
Proof.
  intros Hm Hbody w Hw. unfold bind at 1. specialize (Hm w Hw).
  destruct (m w) as [[a | e] w1]; cbn [snd] in Hm |- *; [| by left].
  unfold bind, session_has. case_bool_decide as Hhas; cbn [when].
  - right. by apply Hbody.
  - by left.
Qed.

(** After a run, the page offers an analysis or export action only if the
    session holds a transcript. *)
Lemma main_guards_actions (env : Env) (i : Inputs) (w : World) :
  no_action w ->
  no_action (snd (main env i w)) \/ has_transcript (snd (main env i w)).
Proof.
  revert w. unfold main.
  do 6 (apply (draw_then_no_action _ _ (fun w' => no_action w' \/ has_transcript w'));
        [done |]).
  destruct (api_key i) as [| c key].
  - intros w Hw. left. by apply draw_no_action.
  - apply guarded_by_transcript; [apply recording_no_action |].
    apply preserves_transcript_and_actions.
    + apply has_transcript_session_only.
    + intros v. apply session_set_has_transcript.
    + intros v. apply session_set_has_transcript.
Qed.

(** The session of every reachable world. *)
Lemma reachable_guards_actions (env : Env) (w : World) :
  reachable env w -> no_action w \/ has_transcript w.
Proof.
  intros [disk | w0 i _].
  - by left.
  - by apply main_guards_actions.
Qed.

Lemma reachable_transcript_nonempty (env : Env) (w : World) :
  never_silent env -> reachable env w -> transcript_nonempty w.
Proof.
  intros Hns. induction 1 as [disk | w0 i _ IH].
  - intros t Ht. cbn in Ht. by rewrite lookup_empty in Ht.
  - by apply main_transcript_nonempty.
Qed.

(** C4 (as the code has it): in every reachable world whose page offers an
    analysis or an export action, the session holds a transcript; the
    guard tests only that the key is present, so the transcript is
    non-empty as long as the hosted model never replies with the empty
    text. *)
Theorem actions_need_a_transcript (env : Env) (w : World) :
  reachable env w ->
  can_act w = true ->
  exists t,
    session_state w !! "transcript" = Some t /\
    (never_silent env -> t <> []).
Proof.
  intros Hreach Hact.
  destruct (reachable_guards_actions env w Hreach) as [Hno | [t Ht]].
  - unfold no_action in Hno. congruence.
  - exists t. split; [exact Ht |].
    intros Hns. by apply (reachable_transcript_nonempty env w Hns Hreach).
Qed.

Lemma actions_need_a_transcript_witness :
  let env := constant_env (lit "Speaker 1: Hello.") in
  let w := snd (script_run env idle_inputs (snd (script_run env transcribe_inputs empty_world))) in
  exists t,
    session_state w !! "transcript" = Some t /\
    (never_silent env -> t <> []).
Proof.
  intros env w.
  apply (actions_need_a_transcript env w).
  - apply reachable_run, reachable_run, (reachable_start env ∅).
  - vm_compute. reflexivity.
Defined.

(** C4 as stated fails: when the model replies to the transcription with
    the empty text, the session holds the empty transcript and the next run
    still offers the analysis actions. *)
Lemma empty_transcript_still_offers_actions :
  ~ (forall w : World,
       reachable (constant_env []) w ->
       can_act w = true ->
       exists t, session_state w !! "transcript" = Some t /\ t <> []).
Proof.
  intros H.
  destruct (H (snd (script_run (constant_env []) idle_inputs
                 (snd (script_run (constant_env []) transcribe_inputs empty_world)))))
    as [t [Ht Hne]].
  - apply reachable_run, reachable_run, (reachable_start _ ∅).
  - vm_compute. reflexivity.
  - vm_compute in Ht. injection Ht as <-. by apply Hne.
Qed.

(** ** The temporary audio file *)

Lemma bind_draw {A : Type} (x : widget) (k : M A) (w : World) :
  (exec draw x in k) w
    = k (mkWorld (session_state w) (files w) (calls w) (x :: screen w)).
Proof. reflexivity. Qed.

Lemma bind_raise {A B : Type} (m : M A) (k : A -> M B) (w w' : World) (e : exn) :
  m w = (Raise e, w') -> bind m k w = (Raise e, w').
Proof. intros H. unfold bind. by rewrite H. Qed.

(** A run in which the transcribe button was clicked: the recording is
    written to a new file, handed to the model, the outcome is stored as
    the transcript, and the run ends with a rerun.  The file stays. *)
Lemma recording_transcribe (env : Env) (i : Inputs) (w : World) (audio : pybytes) :
  audio_value i = Some audio ->
  click_transcribe i = true ->
  let p := fresh (dom (files w)) in
  exists t more scr,
    recording env i w =
      (Raise RerunException,
       mkWorld (<["transcript" := t]> (session_state w))
               (<[p := mkFile ".wav" audio]> (files w))
               (more ++ Upload p :: calls w)
               scr).
Proof.
  intros Haudio Hclick p. unfold recording. rewrite !bind_draw, Haudio, Hclick.
  unfold bind at 1. unfold named_temporary_file at 1.
  cbn [session_state files calls screen].
  rewrite bind_draw. cbn [session_state files calls screen when].
  rewrite bind_draw. cbn [session_state files calls screen].
  fold p.
  unfold listen_and_transcribe, try_except, bind, gw_upload, gw_generate, ret,
    session_set, raise.
  cbn [session_state files calls screen].
  destruct (upload_file env _ _ _) as [a | cls msg]; cbn [to_result].
  - destruct (generate_content env _ _ _) as [t | cls msg]; cbn [to_result].
    + exists t, [Generate transcribe_prompt (Some a)]. eexists. reflexivity.
    + exists (lit "Agent Error: " ++ msg), [Generate transcribe_prompt (Some a)].
      eexists. reflexivity.
  - exists (lit "Agent Error: " ++ msg), []. eexists. reflexivity.
Qed.

Lemma script_run_transcribe (env : Env) (i : Inputs) (w : World) (audio : pybytes) :
  api_key i <> [] ->
  audio_value i = Some audio ->
  click_transcribe i = true ->
  exists t more scr,
    script_run env i w =
      (Raise RerunException,
       mkWorld (<["transcript" := t]> (session_state w))
               (<[fresh (dom (files w)) := mkFile ".wav" audio]> (files w))
               (more ++ Upload (fresh (dom (files w))) :: calls w)
               scr).
Proof.
  intros Hkey Haudio Hclick. unfold script_run, main. rewrite !bind_draw.
  destruct (api_key i) as [| c key]; [done |].
  cbn [session_state files calls screen].
  destruct (recording_transcribe env i
              (mkWorld (session_state w) (files w) (calls w)
                 [Markdown page_header; Markdown team_card; Subheader (lit "CREATOR");
                  Markdown (lit "---"); TextInput (lit "Gemini API Key");
                  Title settings_title])
              audio Haudio Hclick) as [t [more [scr Hrec]]].
  exists t, more, scr. apply bind_raise. exact Hrec.
Qed.

(** C3 (as the code has it): the recording is written to a temporary file
    created with delete=False and nothing removes it.  After every
    transcription, whether the model answered or failed, the file handed to
    the model is still on disk with the recorded audio. *)
Theorem recorded_audio_file_is_kept
    (env : Env) (i : Inputs) (w : World) (audio : pybytes) :
  api_key i <> [] ->
  audio_value i = Some audio ->
  click_transcribe i = true ->
  let w' := snd (script_run env i w) in
  let p := fresh (dom (files w)) in
  files w !! p = None /\
  Upload p ∈ calls w' /\
  files w' !! p = Some (mkFile ".wav" audio) /\
  fst (script_run env i w) = Raise RerunException.
Proof.
  intros Hkey Haudio Hclick w' p. subst w'.
  destruct (script_run_transcribe env i w audio Hkey Haudio Hclick)
    as [t [more [scr ->]]].
  cbn [fst snd session_state files calls screen]. fold p.
  split; [| split; [| split]].
  - apply not_elem_of_dom. subst p. apply is_fresh.
  - apply elem_of_app. right. apply list_elem_of_here.
  - apply lookup_insert_eq.
  - reflexivity.
Qed.

Lemma recorded_audio_file_is_kept_witness :
  let w' := snd (script_run failing_env transcribe_inputs empty_world) in
  let p := fresh (dom (files empty_world)) in
  files empty_world !! p = None /\
  Upload p ∈ calls w' /\
  files w' !! p = Some (mkFile ".wav" recorded_audio) /\
  fst (script_run failing_env transcribe_inputs empty_world) = Raise RerunException.
Proof.
  apply (recorded_audio_file_is_kept failing_env transcribe_inputs empty_world recorded_audio).
  - discriminate.
  - reflexivity.
  - reflexivity.
Defined.

(** C3 as stated fails: after a transcription the file that was handed to
    the model has not been deleted. *)
Lemma temporary_audio_file_not_deleted :
  let w' := snd (script_run (constant_env (lit "Speaker 1: Hello.")) transcribe_inputs
                   empty_world) in
  ~ (forall p, Upload p ∈ calls w' -> files w' !! p = None).
Proof.
  intros w' H. specialize (H 1%positive).
  assert (Hin : Upload 1 ∈ calls w').
  { apply list_elem_of_In. vm_compute. auto. }
  specialize (H Hin). vm_compute in H. discriminate H.
Qed.

(** ** More on the agent's three operations *)

Lemma eqb_eq (a b : pystr) : eqb a b = true <-> a = b.
Proof.
  revert b; induction a as [|x a IH]; intros [|y b]; simpl; try (split; done).
  rewrite andb_true_iff, N.eqb_eq, IH. split.
  - by intros [-> ->].
  - intros [= -> ->]. done.
Qed.

Lemma build_prompt_unknown (text task : pystr) :
  task ∉ supported_tasks -> build_prompt text task = lit "Analyze this text.".
Proof.
  intros Hno. unfold build_prompt, prompts. cbn [dict_get].
  repeat match goal with
  | |- context [eqb ?k task] =>
      destruct (eqb k task) eqn:?He;
      [ apply eqb_eq in He; exfalso; apply Hno; rewrite <- He;
        unfold supported_tasks;
        repeat first [apply list_elem_of_here | apply list_elem_of_further]
      | clear He ]
  end.
  reflexivity.
Qed.

(** X1: a task name that is not a key of the prompt dictionary falls back
    to the fixed prompt "Analyze this text.": the model is asked without
    being given the transcript. *)
Theorem unknown_task_sends_default_prompt (env : Env) (w : World) (text task : pystr) :
  task ∉ supported_tasks ->
  calls (snd (think_and_process env text task w))
    = Generate (lit "Analyze this text.") None :: calls w.
Proof.
  intros Hno. rewrite think_and_process_calls. by rewrite build_prompt_unknown.
Qed.

Lemma unknown_task_sends_default_prompt_witness :
  calls (snd (think_and_process (constant_env (lit "ok")) (lit "Speaker 1: Hello.")
                (lit "Translate") empty_world))
    = Generate (lit "Analyze this text.") None :: calls empty_world.
Proof.
  apply (unknown_task_sends_default_prompt (constant_env (lit "ok")) empty_world
           (lit "Speaker 1: Hello.") (lit "Translate")).
  intros H. unfold supported_tasks in H.
  repeat (apply elem_of_cons in H as [H | H]; [discriminate H |]).
  by apply elem_of_nil in H.
Defined.

Lemma replace_from_deletes (old : pystr) (s : pystr) (k : nat) :
  replace_from old [] k s `sublist_of` s.
Proof.
  revert k; induction s as [|c s IH]; intros k; [done |].
  destruct k as [|k]; cbn [replace_from].
  - destruct (starts_with old (c :: s)).
    + apply sublist_cons, IH.
    + apply sublist_skip, IH.
  - apply sublist_cons, IH.
Qed.

Lemma replace_deletes (s old : pystr) : replace s old [] `sublist_of` s.
Proof.
  destruct old as [|a old]; unfold replace.
  - induction s as [|c s IH]; [done |]. by apply sublist_skip.
  - apply replace_from_deletes.
Qed.

Lemma substring_sublist (a b : pystr) : substring a b -> a `sublist_of` b.
Proof.
  intros [pre [post ->]]. by apply sublist_inserts_l, sublist_inserts_r.
Qed.

Lemma strip_fences_deletes (reply : pystr) : strip_fences reply `sublist_of` reply.
Proof.
  unfold strip_fences.
  etrans; [apply substring_sublist, strip_substring |].
  etrans; apply replace_deletes.
Qed.

(** X2: the post-processing of think_and_process only deletes characters:
    the returned text is the reply with some characters left out, in the
    same order, so it is never longer than the reply. *)
Theorem post_processing_only_deletes
    (env : Env) (w : World) (text task reply : pystr) :
  generate_content env (calls w) (build_prompt text task) None = Reply reply ->
  exists r,
    fst (think_and_process env text task w) = Ok r /\
    r `sublist_of` reply /\
    (length r <= length reply)%nat.
Proof.
  intros H. exists (strip_fences reply). split; [by apply think_and_process_reply |].
  split; [apply strip_fences_deletes | apply sublist_length, strip_fences_deletes].
Qed.

Lemma post_processing_only_deletes_witness :
  let reply := lit " ```mermaid graph TD;``` A-->B " in
  exists r,
    fst (think_and_process (constant_env reply) (lit "Speaker 1: Hello.")
           (lit "Mind Map") empty_world) = Ok r /\
    r `sublist_of` reply /\
    (length r <= length reply)%nat.
Proof.
  intros reply.
  apply (post_processing_only_deletes (constant_env reply) empty_world
           (lit "Speaker 1: Hello.") (lit "Mind Map") reply).
  reflexivity.
Defined.

Lemma replace_from_absent (old new s : pystr) :
  contains old s = false -> replace_from old new 0 s = s.
Proof.
  induction s as [|c s IH]; [done |]. intros H.
  change (contains old (c :: s)) with (starts_with old (c :: s) || contains old s) in H.
  apply orb_false_iff in H as [Hsw Hc].
  cbn [replace_from]. rewrite Hsw. by rewrite IH.
Qed.

Lemma replace_absent (s old new : pystr) :
  old <> [] -> ~ substring old s -> replace s old new = s.
Proof.
  intros Hold Hno. destruct old as [|a old]; [done |].
  apply replace_from_absent. destruct (contains (a :: old) s) eqn:Hc; [| done].
  by apply contains_spec in Hc.
Qed.

(** X3: a reply that has no run of three backticks and no leading or
    trailing whitespace comes back from think_and_process unchanged. *)
Theorem clean_reply_is_returned_unchanged
    (env : Env) (w : World) (text task reply : pystr) :
  ~ substring (lit "```") reply ->
  strip reply = reply ->
  generate_content env (calls w) (build_prompt text task) None = Reply reply ->
  fst (think_and_process env text task w) = Ok reply.
Proof.
  intros Hno Hstrip Hgen. rewrite (think_and_process_reply _ _ _ _ _ Hgen).
  unfold strip_fences.
  rewrite (replace_absent reply fence_mermaid []); [| done |].
  - rewrite (replace_absent reply fence []); [by rewrite Hstrip | done | done].
  - intros Hm. apply Hno. apply (substring_trans _ fence_mermaid); [| done].
    by exists [], (lit "mermaid").
Qed.

Lemma clean_reply_is_returned_unchanged_witness :
  let reply := lit "graph TD; A-->B" in
  fst (think_and_process (constant_env reply) (lit "Speaker 1: Hello.")
         (lit "Mind Map") empty_world) = Ok reply.
Proof.
  intros reply.
  apply (clean_reply_is_returned_unchanged (constant_env reply) empty_world
           (lit "Speaker 1: Hello.") (lit "Mind Map") reply).
  - intros H. apply contains_spec in H. vm_compute in H. discriminate H.
  - reflexivity.
  - reflexivity.
Defined.

(** X4: listen_and_transcribe never raises, whatever the hosted model does,
    and it touches neither the session, nor the disk, nor the page. *)
Theorem listen_and_transcribe_never_raises (env : Env) (p : positive) (w : World) :
  let w' := snd (listen_and_transcribe env p w) in
  (exists t, fst (listen_and_transcribe env p w) = Ok t) /\
  session_state w' = session_state w /\
  files w' = files w /\
  screen w' = screen w.
Proof.
  unfold listen_and_transcribe, try_except, bind, gw_upload, gw_generate, ret.
  cbn [calls files session_state screen].
  destruct (upload_file env (calls w) p (files w !! p)) as [a | cls msg];
    cbn [to_result]; [| by eauto].
  destruct (generate_content env _ _ _) as [t | cls msg]; cbn [to_result]; by eauto.
Qed.

Lemma listen_upload_failure (env : Env) (p : positive) (w : World)
    (cls : string) (msg : pystr) :
  upload_file env (calls w) p (files w !! p) = Failure cls msg ->
  listen_and_transcribe env p w =
    (Ok (lit "Agent Error: " ++ msg),
     mkWorld (session_state w) (files w) (Upload p :: calls w) (screen w)).
Proof.
  intros H. unfold listen_and_transcribe, try_except, bind, gw_upload.
  by rewrite H.
Qed.

(** X5: when the upload of the audio file fails, listen_and_transcribe
    returns "Agent Error: " followed by the failure's message and never
    asks the model to generate: the upload is the only request made. *)
Theorem upload_failure_skips_generation (env : Env) (p : positive) (w : World)
    (cls : string) (msg : pystr) :
  upload_file env (calls w) p (files w !! p) = Failure cls msg ->
  fst (listen_and_transcribe env p w) = Ok (lit "Agent Error: " ++ msg) /\
  calls (snd (listen_and_transcribe env p w)) = Upload p :: calls w.
Proof.
  intros H. by rewrite (listen_upload_failure env p w cls msg H).
Qed.

Lemma upload_failure_skips_generation_witness :
  fst (listen_and_transcribe upload_down_env 1%positive empty_world)
    = Ok (lit "Agent Error: " ++ lit "503 upload failed") /\
  calls (snd (listen_and_transcribe upload_down_env 1%positive empty_world))
    = Upload 1 :: calls empty_world.
Proof.
  apply (upload_failure_skips_generation upload_down_env 1%positive empty_world
           "ServiceUnavailable" (lit "503 upload failed")).
  reflexivity.
Defined.

Lemma ask_question_calls (env : Env) (w : World) (transcript question : pystr) :
  calls (snd (ask_question env transcript question w))
    = Generate (question_prompt transcript question) None :: calls w.
Proof.
  unfold ask_question, bind, gw_generate.
  by destruct (generate_content env _ _ _).
Qed.

(** X6: ask_question sends one prompt that holds the whole transcript and,
    after it, the whole question; the model's reply is handed back as it
    is, fence markers and surrounding whitespace included. *)
Theorem ask_question_prompt_and_reply
    (env : Env) (w : World) (transcript question reply : pystr) :
  generate_content env (calls w) (question_prompt transcript question) None = Reply reply ->
  fst (ask_question env transcript question w) = Ok reply /\
  exists pre mid post,
    calls (snd (ask_question env transcript question w))
      = Generate (pre ++ transcript ++ mid ++ question ++ post) None :: calls w.
Proof.
  intros H. split.
  - unfold ask_question, bind, gw_generate.
    change (lit "Context: " ++ transcript ++ nl ++ nl ++ lit "Question: " ++ question ++
            nl ++ nl ++ lit "Answer concisely based on context:")
      with (question_prompt transcript question).
    by rewrite H.
  - exists (lit "Context: "), (nl ++ nl ++ lit "Question: "),
      (nl ++ nl ++ lit "Answer concisely based on context:").
    rewrite ask_question_calls. unfold question_prompt.
    by rewrite <- !app_assoc.
Qed.

Lemma ask_question_prompt_and_reply_witness :
  let reply := lit " ```Speaker 2``` " in
  fst (ask_question (constant_env reply) (lit "Speaker 1: Hello.") (lit "Who answers?")
         empty_world) = Ok reply /\
  exists pre mid post,
    calls (snd (ask_question (constant_env reply) (lit "Speaker 1: Hello.")
                  (lit "Who answers?") empty_world))
      = Generate (pre ++ lit "Speaker 1: Hello." ++ mid ++ lit "Who answers?" ++ post) None
          :: calls empty_world.
Proof.
  intros reply.
  apply (ask_question_prompt_and_reply (constant_env reply) empty_world
           (lit "Speaker 1: Hello.") (lit "Who answers?") reply).
  reflexivity.
Defined.

(** ** More on the PDF exporter *)

Lemma clean_latin1 (t : pystr) : Forall Latin1.encodable t -> clean t = t.
Proof.
  intros H. rewrite clean_spec. induction H as [|c t Hc _ IH]; [done |].
  simpl. rewrite IH. unfold Latin1.encodable in Hc.
  by destruct (N.ltb_spec c 256); [| lia].
Qed.

(** X7: [clean] keeps the length of the text, changes nothing in a text
    that is within latin-1, and cleaning twice is the same as cleaning
    once. *)
Theorem clean_is_a_projection (t : pystr) :
  length (clean t) = length t /\
  clean (clean t) = clean t /\
  (Forall Latin1.encodable t -> clean t = t).
Proof.
  split; [| split].
  - rewrite clean_spec. apply length_map.
  - apply clean_latin1, clean_encodable.
  - apply clean_latin1.
Qed.

(** X8: for texts within latin-1 nothing is replaced: create_pdf hands FPDF
    the title, the notes and the transcript as they are, and returns the
    encoded buffer. *)
Theorem create_pdf_keeps_latin1_text
    (env : Env) (title transcript notes buffer : pystr) (b : pybytes) :
  Forall Latin1.encodable title ->
  Forall Latin1.encodable transcript ->
  Forall Latin1.encodable notes ->
  fpdf_output env (pdf_layout title notes transcript) = Reply buffer ->
  Latin1.encode_strict buffer = Some b ->
  create_pdf env title transcript notes = Ok b.
Proof.
  intros Ht Htr Hn Hout Hb. unfold create_pdf.
  rewrite !clean_latin1 by done. by rewrite Hout, Hb.
Qed.

Lemma create_pdf_keeps_latin1_text_witness :
  create_pdf (constant_env []) (lit "VerbaFlow") (lit "Speaker 1: Hello.") (lit "- greet")
    = Ok (Latin1.encode_replace
            (lit "VerbaFlow" ++ lit "AI Notes:" ++ lit "- greet" ++ lit "Transcript:" ++
             lit "Speaker 1: Hello.")).
Proof.
  apply (create_pdf_keeps_latin1_text (constant_env []) (lit "VerbaFlow")
           (lit "Speaker 1: Hello.") (lit "- greet")
           (lit "VerbaFlow" ++ lit "AI Notes:" ++ lit "- greet" ++ lit "Transcript:" ++
            lit "Speaker 1: Hello.")).
  - apply lit_encodable.
  - apply lit_encodable.
  - apply lit_encodable.
  - reflexivity.
  - reflexivity.
Defined.

(** ** The DOCX exporter *)

Lemma create_docx_saved (env : Env) (transcript notes : pystr) (w : World) (b : pybytes) :
  docx_save env (docx_items transcript notes) = Reply b ->
  create_docx env transcript notes w =
    (Ok b,
     mkWorld (session_state w)
             (<[fresh (dom (files w)) := mkFile ".docx" b]> (files w))
             (calls w) (screen w)).
Proof.
  intros H. unfold create_docx, bind, named_temporary_file, save_docx, read_file.
  cbn [session_state files calls screen].
  change [AddHeading (lit "VerbaFlow Report") 0; AddHeading (lit "AI Notes") 1;
          AddParagraph notes; AddHeading (lit "Transcript") 1; AddParagraph transcript]
    with (docx_items transcript notes).
  rewrite H. cbn [session_state files calls screen].
  rewrite alter_insert_eq, lookup_insert_eq. reflexivity.
Qed.

Lemma create_docx_failed (env : Env) (transcript notes : pystr) (w : World)
    (cls : string) (msg : pystr) :
  docx_save env (docx_items transcript notes) = Failure cls msg ->
  create_docx env transcript notes w =
    (Raise (PyException cls msg),
     mkWorld (session_state w)
             (<[fresh (dom (files w)) := mkFile ".docx" []]> (files w))
             (calls w) (screen w)).
Proof.
  intros H. unfold create_docx, bind, named_temporary_file, save_docx.
  cbn [session_state files calls screen].
  change [AddHeading (lit "VerbaFlow Report") 0; AddHeading (lit "AI Notes") 1;
          AddParagraph notes; AddHeading (lit "Transcript") 1; AddParagraph transcript]
    with (docx_items transcript notes).
  by rewrite H.
Qed.

Lemma fresh_file_absent (disk : gmap positive file) : disk !! fresh (dom disk) = None.
Proof. apply not_elem_of_dom, is_fresh. Qed.

(** X9: create_docx returns exactly the bytes python-docx saved, read back
    from a new temporary file; that file stays on disk with those bytes,
    every other file is untouched, and the session and the request log are
    not changed. *)
Theorem create_docx_returns_saved_bytes
    (env : Env) (transcript notes : pystr) (w : World) (b : pybytes) :
  docx_save env (docx_items transcript notes) = Reply b ->
  let w' := snd (create_docx env transcript notes w) in
  let tmp := fresh (dom (files w)) in
  fst (create_docx env transcript notes w) = Ok b /\
  files w !! tmp = None /\
  files w' !! tmp = Some (mkFile ".docx" b) /\
  (forall q, q <> tmp -> files w' !! q = files w !! q) /\
  session_state w' = session_state w /\
  calls w' = calls w.
Proof.
  intros H w' tmp. subst w'. rewrite (create_docx_saved env transcript notes w b H).
  cbn [fst snd session_state files calls]. fold tmp.
  repeat split.
  - apply fresh_file_absent.
  - apply lookup_insert_eq.
  - intros q Hq. by apply lookup_insert_ne.
Qed.

Lemma create_docx_returns_saved_bytes_witness :
  let env := constant_env [] in
  let b := Latin1.encode_replace
             (lit "VerbaFlow Report" ++ lit "AI Notes" ++ lit "- greet" ++
              lit "Transcript" ++ lit "Speaker 1: Hello.") in
  let w' := snd (create_docx env (lit "Speaker 1: Hello.") (lit "- greet") empty_world) in
  let tmp := fresh (dom (files empty_world)) in
  fst (create_docx env (lit "Speaker 1: Hello.") (lit "- greet") empty_world) = Ok b /\
  files empty_world !! tmp = None /\
  files w' !! tmp = Some (mkFile ".docx" b) /\
  (forall q, q <> tmp -> files w' !! q = files empty_world !! q) /\
  session_state w' = session_state empty_world /\
  calls w' = calls empty_world.
Proof.
  intros env b.
  apply (create_docx_returns_saved_bytes env (lit "Speaker 1: Hello.") (lit "- greet")
           empty_world b).
  reflexivity.
Defined.



(** ** Walking through a script run *)

(** A step that changes no part of the world the property looks at. *)
Ltac keep_step :=
  let w := fresh "w" in
  let Hw := fresh "Hw" in
  intros w Hw;
  unfold draw, session_set, session_has, session_get, named_temporary_file,
    read_file, save_docx, gw_upload, gw_generate, lift, ret, raise;
  repeat case_match; exact Hw.

(** Splits a computation into its steps; [special] is tried first on each. *)
Ltac walk special :=
  repeat first
    [ special
    | apply preserves_ret
    | apply preserves_raise
    | apply preserves_lift
    | apply preserves_when
    | apply preserves_try_except; [| intros ?]
    | match goal with
      | |- preserves _ (bind _ _) => apply preserves_bind; [| intros ?]
      | |- preserves _ (match ?x with _ => _ end) => destruct x eqn:?
      end
    | progress unfold main, recording, transcript_and_actions, result_panel
    | match goal with
      | |- preserves _ (listen_and_transcribe _ _) => unfold listen_and_transcribe
      | |- preserves _ (think_and_process _ _ _) => unfold think_and_process
      | |- preserves _ (ask_question _ _ _) => unfold ask_question
      | |- preserves _ (create_docx _ _ _) => unfold create_docx
      end
    | keep_step ].

Lemma bind_establish {A B : Type} (P : World -> Prop) (m : M A) (k : A -> M B) (w : World) :
  P (snd (m w)) -> (forall a, preserves P (k a)) -> P (snd (bind m k w)).
Proof.
  intros Hm Hk. unfold bind. destruct (m w) as [[a | e] w1]; [by apply Hk | done].
Qed.

(** *** Files on disk *)

Lemma named_temporary_file_keeps_files (disk : gmap positive file)
    (sfx : string) (data : pybytes) :
  preserves (keeps_files disk) (named_temporary_file sfx data).
Proof.
  intros w Hw. unfold keeps_files, named_temporary_file in *. cbn [snd files].
  etrans; [exact Hw |]. apply insert_subseteq, fresh_file_absent.
Qed.

Lemma create_docx_keeps_files (env : Env) (disk : gmap positive file)
    (transcript notes : pystr) :
  preserves (keeps_files disk) (create_docx env transcript notes).
Proof.
  intros w Hw. unfold keeps_files in *.
  destruct (docx_save env (docx_items transcript notes)) as [b | cls msg] eqn:Hs.
  - rewrite (create_docx_saved _ _ _ _ _ Hs). cbn [snd files].
    etrans; [exact Hw |]. apply insert_subseteq, fresh_file_absent.
  - rewrite (create_docx_failed _ _ _ _ _ _ Hs). cbn [snd files].
    etrans; [exact Hw |]. apply insert_subseteq, fresh_file_absent.
Qed.

Ltac files_step :=
  first [ apply named_temporary_file_keeps_files | apply create_docx_keeps_files ].

Lemma main_keeps_files (env : Env) (i : Inputs) (disk : gmap positive file) :
  preserves (keeps_files disk) (main env i).
Proof. walk files_step. Qed.

(** X11: a script run never deletes or changes a file: whatever was on disk
    before the run is there afterwards with the same content. *)
Theorem script_run_never_deletes_files (env : Env) (i : Inputs) (w : World) :
  forall (p : positive) (f : file),
    files w !! p = Some f -> files (snd (script_run env i w)) !! p = Some f.
Proof.
  intros p f Hp. unfold script_run.
  assert (H : keeps_files (files w) (snd (main env i
                 (mkWorld (session_state w) (files w) (calls w) [])))).
  { apply main_keeps_files. unfold keeps_files. reflexivity. }
  by apply (lookup_weaken _ _ _ _ Hp H).
Qed.

Lemma script_run_never_deletes_files_witness :
  let w := snd (script_run (constant_env (lit "Speaker 1: Hello.")) transcribe_inputs
                  empty_world) in
  files (snd (script_run (constant_env (lit "Speaker 1: Hello.")) summarize_inputs w))
    !! 1%positive = Some (mkFile ".wav" recorded_audio).
Proof.
  intros w.
  apply (script_run_never_deletes_files (constant_env (lit "Speaker 1: Hello."))
           summarize_inputs w 1%positive (mkFile ".wav" recorded_audio)).
  vm_compute. reflexivity.
Defined.

Lemma bind_named_temporary_file {A : Type} (sfx : string) (data : pybytes)
    (k : positive -> M A) (w : World) :
  (do tmp <- named_temporary_file sfx data in k tmp) w
    = k (fresh (dom (files w)))
        (mkWorld (session_state w)
           (<[fresh (dom (files w)) := mkFile sfx data]> (files w)) (calls w) (screen w)).
Proof. reflexivity. Qed.

Lemma recording_writes_audio (env : Env) (i : Inputs) (w : World) (audio : pybytes) :
  audio_value i = Some audio ->
  keeps_files (<[fresh (dom (files w)) := mkFile ".wav" audio]> (files w))
    (snd (recording env i w)).
Proof.
  intros Haudio. unfold recording. rewrite !bind_draw, Haudio.
  rewrite bind_named_temporary_file. cbn [session_state files calls screen].
  match goal with
  | |- keeps_files ?disk (snd (?m ?w1)) =>
      cut (preserves (keeps_files disk) m);
      [ intros Hp; apply Hp; unfold keeps_files; reflexivity | walk files_step ]
  end.
Qed.

(** X12: every script run with an API key and a recording in the audio
    widget writes the recording to a new temporary .wav file, whether or
    not the transcribe button was clicked, and the file is still on disk
    when the run ends. *)
Theorem every_run_with_audio_leaves_a_file
    (env : Env) (i : Inputs) (w : World) (audio : pybytes) :
  api_key i <> [] ->
  audio_value i = Some audio ->
  let tmp := fresh (dom (files w)) in
  files w !! tmp = None /\
  files (snd (script_run env i w)) !! tmp = Some (mkFile ".wav" audio).
Proof.
  intros Hkey Haudio tmp. split; [apply fresh_file_absent |].
  assert (H : keeps_files (<[tmp := mkFile ".wav" audio]> (files w))
                (snd (script_run env i w))).
  { unfold script_run, main. rewrite !bind_draw.
    destruct (api_key i) as [| c key]; [done |].
    cbn [session_state files calls screen]. subst tmp.
    apply bind_establish.
    - apply (recording_writes_audio env i
               (mkWorld (session_state w) (files w) (calls w)
                  [Markdown page_header; Markdown team_card; Subheader (lit "CREATOR");
                   Markdown (lit "---"); TextInput (lit "Gemini API Key");
                   Title settings_title])
               audio Haudio).
    - intros _. walk files_step. }
  apply (lookup_weaken _ _ _ _ (lookup_insert_eq _ _ _) H).
Qed.

Lemma every_run_with_audio_leaves_a_file_witness :
  let tmp := fresh (dom (files empty_world)) in
  files empty_world !! tmp = None /\
  files (snd (script_run (constant_env (lit "Speaker 1: Hello.")) idle_inputs empty_world))
    !! tmp = Some (mkFile ".wav" recorded_audio).
Proof.
  apply (every_run_with_audio_leaves_a_file (constant_env (lit "Speaker 1: Hello."))
           idle_inputs empty_world recorded_audio).
  - discriminate.
  - reflexivity.
Defined.

(** *** Requests to the hosted model *)

Lemma silent_preserves {A : Type} (m : M A) :
  (forall c, preserves (fun w => calls w = c) m) -> silent m.
Proof. intros H w. by apply (H (calls w) w). Qed.

Lemma create_docx_silent (env : Env) (transcript notes : pystr) :
  silent (create_docx env transcript notes).
Proof. apply silent_preserves. intros c. walk fail. Qed.

Lemma result_panel_silent (env : Env) : silent (result_panel env).
Proof. apply silent_preserves. intros c. walk fail. Qed.

(** X13: a run in which no button is clicked and the chat box is empty
    makes no request to the hosted model. *)
Theorem idle_run_makes_no_request (env : Env) (i : Inputs) (w : World) :
  click_transcribe i = false ->
  chosen_task i = None ->
  user_q i = [] ->
  calls (snd (script_run env i w)) = calls w.
Proof.
  intros Hclick Htask Hq. unfold script_run.
  cut (preserves (fun w' => calls w' = calls w) (main env i)).
  { intros H. by apply H. }
  unfold main, recording, transcript_and_actions.
  rewrite Hclick, Htask, Hq. unfold when at 1.
  walk fail.
Qed.

Lemma idle_run_makes_no_request_witness :
  let w := snd (script_run (constant_env (lit "Speaker 1: Hello.")) transcribe_inputs
                  empty_world) in
  calls (snd (script_run (constant_env (lit "Speaker 1: Hello.")) idle_inputs w)) = calls w.
Proof.
  intros w.
  apply (idle_run_makes_no_request (constant_env (lit "Speaker 1: Hello.")) idle_inputs w);
    reflexivity.
Defined.

Lemma calls_le_silent {A : Type} (n : nat) (m : M A) : silent m -> calls_le n m.
Proof. intros H w. exists []. split; [apply H | simpl; lia]. Qed.

Lemma calls_le_bind {A B : Type} (a b : nat) (m : M A) (k : A -> M B) :
  calls_le a m -> (forall x, calls_le b (k x)) -> calls_le (a + b) (bind m k).
Proof.
  intros Hm Hk w. unfold bind. destruct (Hm w) as [more [Hc Hl]].
  destruct (m w) as [[x | e] w1]; cbn [snd] in *.
  - destruct (Hk x w1) as [more' [Hc' Hl']].
    exists (more' ++ more). rewrite Hc', Hc, length_app, app_assoc. split; [done | lia].
  - exists more. split; [done | lia].
Qed.

Lemma calls_le_bind_silent {A B : Type} (n : nat) (m : M A) (k : A -> M B) :
  silent m -> (forall x, calls_le n (k x)) -> calls_le n (bind m k).
Proof.
  intros Hm Hk. apply (calls_le_bind 0 n); [by apply calls_le_silent | done].
Qed.

Lemma gw_generate_calls_le (env : Env) (prompt : pystr) (a : option N) :
  calls_le 1 (gw_generate env prompt a).
Proof. intros w. by exists [Generate prompt a]. Qed.

Lemma draw_silent (x : widget) : silent (draw x).
Proof. by intros w. Qed.

Lemma session_get_silent (k : string) : silent (session_get k).
Proof. intros w. unfold session_get. by destruct (session_state w !! k). Qed.

Lemma session_set_silent (k : string) (v : pystr) : silent (session_set k v).
Proof. by intros w. Qed.

Lemma think_and_process_calls_le (env : Env) (text task : pystr) :
  calls_le 1 (think_and_process env text task).
Proof.
  apply (calls_le_bind 1 0); [apply gw_generate_calls_le | intros reply].
  by apply calls_le_silent.
Qed.

Lemma ask_question_calls_le (env : Env) (transcript question : pystr) :
  calls_le 1 (ask_question env transcript question).
Proof.
  apply (calls_le_bind 1 0); [apply gw_generate_calls_le | intros reply].
  by apply calls_le_silent.
Qed.

(** Below the transcript guard: at most one request for the chosen task and
    one for the question. *)
Lemma transcript_and_actions_calls_le (env : Env) (i : Inputs) :
  calls_le 2 (transcript_and_actions env i).
Proof.
  unfold transcript_and_actions.
  apply calls_le_bind_silent; [apply draw_silent | intros _].
  apply calls_le_bind_silent; [apply session_get_silent | intros transcript].
  do 6 (apply calls_le_bind_silent; [apply draw_silent | intros _]).
  apply (calls_le_bind 1 1).
  { destruct (chosen_task i) as [task |]; [| by apply calls_le_silent].
    apply calls_le_bind_silent; [apply draw_silent | intros _].
    apply calls_le_bind_silent; [apply session_get_silent | intros t].
    apply (calls_le_bind 1 0); [apply think_and_process_calls_le | intros result].
    apply calls_le_bind_silent; [apply session_set_silent | intros _].
    apply calls_le_silent, session_set_silent. }
  intros _.
  apply calls_le_bind_silent; [by intros w | intros has_result].
  apply calls_le_bind_silent.
  { destruct has_result; [apply result_panel_silent | by intros w]. }
  intros _.
  do 3 (apply calls_le_bind_silent; [apply draw_silent | intros _]).
  destruct (user_q i) as [| c q]; [by apply calls_le_silent |].
  apply calls_le_bind_silent; [apply draw_silent | intros _].
  apply calls_le_bind_silent; [apply session_get_silent | intros t].
  apply (calls_le_bind 1 0); [apply ask_question_calls_le | intros answer].
  apply calls_le_silent, draw_silent.
Qed.

(** The recorder section either returns without a request, or ends the run
    after the upload and the generation of a transcription. *)
Lemma recording_calls (env : Env) (i : Inputs) (w : World) :
  match recording env i w with
  | (Ok _, w1) => calls w1 = calls w
  | (Raise _, w1) => exists more, calls w1 = more ++ calls w /\ (length more <= 2)%nat
  end.
Proof.
  unfold recording. rewrite !bind_draw.
  destruct (audio_value i) as [audio |]; [| done].
  rewrite bind_named_temporary_file, bind_draw.
  destruct (click_transcribe i); [| done].
  cbn [when]. rewrite bind_draw.
  unfold listen_and_transcribe, try_except, bind, gw_upload, gw_generate, ret,
    session_set, raise.
  cbn [session_state files calls screen].
  destruct (upload_file env _ _ _) as [a | cls msg]; cbn [to_result].
  - destruct (generate_content env _ _ _) as [t | cls msg]; cbn [to_result];
      (eexists [_; _]; split; [reflexivity | simpl; lia]).
  - eexists [_]. split; [reflexivity | simpl; lia].
Qed.

(** X14: a script run makes at most two requests to the hosted model: the
    upload and the generation of a transcription, or one analysis and one
    chat question. *)
Theorem script_run_makes_at_most_two_requests (env : Env) (i : Inputs) (w : World) :
  exists more,
    calls (snd (script_run env i w)) = more ++ calls w /\ (length more <= 2)%nat.
Proof.
  unfold script_run, main. rewrite !bind_draw.
  destruct (api_key i) as [| c key].
  { exists []. split; [reflexivity | simpl; lia]. }
  cbn [session_state files calls screen].
  unfold bind at 1.
  match goal with
  | |- context [recording env i ?w0] =>
      pose proof (recording_calls env i w0) as Hrec;
      destruct (recording env i w0) as [[[] | e] w1]
  end; cbn [snd calls] in *; [| exact Hrec].
  rewrite <- Hrec.
  apply (calls_le_bind_silent 2 (session_has "transcript")); [by intros w' |].
  intros has. destruct has; [apply transcript_and_actions_calls_le |].
  by apply calls_le_silent.
Qed.

(** ** What a run does to the session *)



Lemma recording_upload_failure (env : Env) (i : Inputs) (w : World) (audio : pybytes)
    (cls : string) (msg : pystr) :
  audio_value i = Some audio ->
  click_transcribe i = true ->
  upload_file env (calls w) (fresh (dom (files w))) (Some (mkFile ".wav" audio))
    = Failure cls msg ->
  exists scr,
    recording env i w =
      (Raise RerunException,
       mkWorld (<["transcript" := lit "Agent Error: " ++ msg]> (session_state w))
               (<[fresh (dom (files w)) := mkFile ".wav" audio]> (files w))
               (Upload (fresh (dom (files w))) :: calls w)
               scr).
Proof.
  intros Haudio Hclick Hup. unfold recording. rewrite !bind_draw, Haudio.
  rewrite bind_named_temporary_file, bind_draw, Hclick.
  cbn [when session_state files calls screen]. rewrite bind_draw.
  cbn [session_state files calls screen].
  unfold bind at 1.
  rewrite (listen_upload_failure env _ _ cls msg);
    [| cbn [session_state files calls screen]; by rewrite lookup_insert_eq].
  eexists. reflexivity.
Qed.

(** X16: when the upload of the recording fails, the run stores the text
    "Agent Error: " followed by the failure's message as the transcript,
    without asking the model to generate, and ends with a rerun. *)
Theorem failed_upload_is_stored_as_transcript
    (env : Env) (i : Inputs) (w : World) (audio : pybytes) (cls : string) (msg : pystr) :
  api_key i <> [] ->
  audio_value i = Some audio ->
  click_transcribe i = true ->
  upload_file env (calls w) (fresh (dom (files w))) (Some (mkFile ".wav" audio))
    = Failure cls msg ->
  let w' := snd (script_run env i w) in
  fst (script_run env i w) = Raise RerunException /\
  session_state w' !! "transcript" = Some (lit "Agent Error: " ++ msg) /\
  calls w' = Upload (fresh (dom (files w))) :: calls w.
Proof.
  intros Hkey Haudio Hclick Hup w'. subst w'.
  assert (Hrun : exists scr,
            script_run env i w =
              (Raise RerunException,
               mkWorld (<["transcript" := lit "Agent Error: " ++ msg]> (session_state w))
                       (<[fresh (dom (files w)) := mkFile ".wav" audio]> (files w))
                       (Upload (fresh (dom (files w))) :: calls w)
                       scr)).
  { unfold script_run, main. rewrite !bind_draw.
    destruct (api_key i) as [| c key]; [done |].
    cbn [session_state files calls screen].
    destruct (recording_upload_failure env i
                (mkWorld (session_state w) (files w) (calls w)
                   [Markdown page_header; Markdown team_card; Subheader (lit "CREATOR");
                    Markdown (lit "---"); TextInput (lit "Gemini API Key");
                    Title settings_title])
                audio cls msg Haudio Hclick Hup) as [scr Hrec].
    exists scr. apply bind_raise. exact Hrec. }
  destruct Hrun as [scr ->]. cbn [fst snd session_state calls].
  by rewrite lookup_insert_eq.
Qed.

Lemma failed_upload_is_stored_as_transcript_witness :
  let w' := snd (script_run upload_down_env transcribe_inputs empty_world) in
  fst (script_run upload_down_env transcribe_inputs empty_world) = Raise RerunException /\
  session_state w' !! "transcript" = Some (lit "Agent Error: " ++ lit "503 upload failed") /\
  calls w' = Upload (fresh (dom (files empty_world))) :: calls empty_world.
Proof.
  apply (failed_upload_is_stored_as_transcript upload_down_env transcribe_inputs empty_world
           recorded_audio "ServiceUnavailable" (lit "503 upload failed")).
  - discriminate.
  - reflexivity.
  - reflexivity.
  - reflexivity.
Defined.

Lemma chosen_task_offered (i : Inputs) (t : pystr) :
  chosen_task i = Some t -> t ∈ offered_tasks.
Proof.
  unfold chosen_task, offered_tasks.
  destruct (click_mind_map i), (click_action_items i), (click_explain i),
    (click_summarize i); intros [= <-];
    repeat first [apply list_elem_of_here | apply list_elem_of_further].
Qed.

Lemma session_consistent_session_only :
  session_only (fun w => session_consistent w /\ has_transcript w).
Proof.
  intros w w' H. unfold session_consistent, has_transcript. by rewrite H.
Qed.

Lemma set_transcript_consistent (v : pystr) :
  preserves session_consistent (session_set "transcript" v).
Proof.
  intros w (Hrt & Hr & Ht & Hk). unfold session_consistent, session_set.
  cbn [snd session_state]. rewrite !(lookup_insert_ne _ "transcript") by done.
  split; [done |]. split; [| split; [done |]].
  - intros _. rewrite lookup_insert_eq. by eexists.
  - intros k Hs. apply lookup_insert_is_Some in Hs as [<- | [_ Hs]]; [| by apply Hk].
    apply list_elem_of_here.
Qed.

Lemma set_result_and_task_consistent (result task : pystr) :
  task ∈ offered_tasks ->
  preserves (fun w => session_consistent w /\ has_transcript w)
    (exec session_set "result" result in session_set "task" task).
Proof.
  intros Htask w [(Hrt & Hr & Ht & Hk) Hhas].
  unfold session_consistent, has_transcript, bind, session_set in *.
  cbn [snd session_state].
  assert (Hres : (<["task" := task]> (<["result" := result]> (session_state w)))
                   !! "result" = Some result).
  { rewrite lookup_insert_ne by done. apply lookup_insert_eq. }
  assert (Htr : (<["task" := task]> (<["result" := result]> (session_state w)))
                  !! "transcript" = session_state w !! "transcript").
  { by rewrite !lookup_insert_ne by done. }
  rewrite Hres, Htr, lookup_insert_eq.
  repeat split; try done; try by eexists.
  - by intros t [= <-].
  - intros k Hs.
    apply lookup_insert_is_Some in Hs as [<- | [_ Hs]].
    { do 2 apply list_elem_of_further. apply list_elem_of_here. }
    apply lookup_insert_is_Some in Hs as [<- | [_ Hs]]; [| by apply Hk].
    apply list_elem_of_further, list_elem_of_here.
Qed.

Ltac consistent_step :=
  idtac;
  match goal with
  | H : chosen_task _ = Some ?t
    |- preserves _ (bind (session_set "result" _) (fun _ => session_set "task" ?t)) =>
      apply set_result_and_task_consistent, (chosen_task_offered _ _ H)
  | |- preserves session_consistent (session_set "transcript" _) =>
      apply set_transcript_consistent
  end.

Lemma transcript_and_actions_consistent (env : Env) (i : Inputs) :
  preserves (fun w => session_consistent w /\ has_transcript w)
    (transcript_and_actions env i).
Proof. walk consistent_step. Qed.

Lemma main_consistent (env : Env) (i : Inputs) :
  preserves session_consistent (main env i).
Proof.
  unfold main.
  do 6 (apply preserves_bind; [keep_step | intros _]).
  destruct (api_key i) as [| c key]; [keep_step |].
  apply preserves_bind; [walk consistent_step | intros _].
  intros w Hw. unfold bind, session_has. cbn [fst snd].
  case_bool_decide as Hhas; cbn [when]; [| done].
  by apply (transcript_and_actions_consistent env i w).
Qed.

(** X17: in every reachable world the session is coherent: it holds a
    result exactly when it holds the task that produced it, a result comes
    with a transcript, the stored task is one of the four the buttons offer
    (never "Quiz"), and only the keys transcript, result and task exist.
    So the lookups of the result panel never meet a missing key. *)
Theorem reachable_session_is_consistent (env : Env) (w : World) :
  reachable env w -> session_consistent w.
Proof.
  induction 1 as [disk | w i _ IH].
  - unfold session_consistent. cbn [session_state]. rewrite !lookup_empty.
    repeat split; try by intros [? [=]].
    + intros t [=].
    + intros k. rewrite lookup_empty. by intros [? [=]].
  - unfold script_run. by apply main_consistent.
Qed.

Lemma reachable_session_is_consistent_witness :
  let env := constant_env (lit "Speaker 1: Hello.") in
  session_consistent
    (snd (script_run env summarize_inputs
            (snd (script_run env transcribe_inputs empty_world)))).
Proof.
  intros env.
  apply (reachable_session_is_consistent env).
  apply reachable_run, reachable_run, (reachable_start env ∅).
Defined.

Lemma think_and_process_value (env : Env) (text task : pystr) (w : World) (r : pystr) :
  fst (think_and_process env text task w) = Ok r -> ~ substring fence r.
Proof.
  unfold think_and_process, bind, gw_generate.
  destruct (generate_content env _ _ _) as [reply | cls msg]; cbn [to_result fst ret].
  - intros [= <-]. apply strip_fences_clean.
  - discriminate.
Qed.

Lemma set_result_fence_free (v : pystr) :
  ~ substring fence v -> preserves result_fence_free (session_set "result" v).
Proof.
  intros Hv w Hw r. unfold session_set. cbn [snd session_state].
  rewrite lookup_insert_eq. by intros [= <-].
Qed.

Lemma set_other_fence_free (k : string) (v : pystr) :
  k <> "result" -> preserves result_fence_free (session_set k v).
Proof.
  intros Hk w Hw r. unfold session_set. cbn [snd session_state].
  rewrite lookup_insert_ne by done. apply Hw.
Qed.

Ltac fence_free_step :=
  idtac;
  match goal with
  | |- preserves result_fence_free (bind (think_and_process _ _ _) _) =>
      apply (preserves_bind_post _ (fun r => ~ substring fence r));
      [ | apply think_and_process_value | intros ? ? ]
  | H : ~ substring fence ?v |- preserves result_fence_free (session_set "result" ?v) =>
      apply (set_result_fence_free v H)
  | |- preserves result_fence_free (session_set "task" _) =>
      by apply set_other_fence_free
  | |- preserves result_fence_free (session_set "transcript" _) =>
      by apply set_other_fence_free
  end.

Lemma main_result_fence_free (env : Env) (i : Inputs) :
  preserves result_fence_free (main env i).
Proof. walk fence_free_step. Qed.

(** X18: in every reachable world the result stored in the session, for
    whichever task, contains no run of three backticks. *)
Theorem reachable_result_has_no_fence (env : Env) (w : World) (r : pystr) :
  reachable env w ->
  session_state w !! "result" = Some r ->
  ~ substring (lit "```") r.
Proof.
  intros Hreach. revert r. change (result_fence_free w).
  induction Hreach as [disk | w i _ IH].
  - intros r. cbn [session_state]. by rewrite lookup_empty.
  - unfold script_run. by apply main_result_fence_free.
Qed.

Lemma reachable_result_has_no_fence_witness :
  let env := constant_env (lit "```Summary``` done ") in
  ~ substring (lit "```") (lit "Summary done").
Proof.
  intros env.
  apply (reachable_result_has_no_fence env
           (snd (script_run env summarize_inputs
                   (snd (script_run env transcribe_inputs empty_world))))).
  - apply reachable_run, reachable_run, (reachable_start env ∅).
  - vm_compute. reflexivity.
Defined.

(** ** An analysis run *)

Lemma bind_ok {A B : Type} (m : M A) (k : A -> M B) (w w' : World) (a : A) :
  m w = (Ok a, w') -> bind m k w = k a w'.
Proof. intros H. unfold bind. by rewrite H. Qed.

Lemma bind_assoc {A B C : Type} (m : M A) (k : A -> M B) (k' : B -> M C) (w : World) :
  bind (bind m k) k' w = bind m (fun a => bind (k a) k') w.
Proof. unfold bind. by destruct (m w) as [[a | e] w1]. Qed.

Lemma bind_session_get {A : Type} (key : string) (v : pystr) (k : pystr -> M A) (w : World) :
  session_state w !! key = Some v -> bind (session_get key) k w = k v w.
Proof. intros H. unfold bind, session_get. by rewrite H. Qed.

Lemma bind_session_set {A : Type} (key : string) (v : pystr) (k : M A) (w : World) :
  (exec session_set key v in k) w
    = k (mkWorld (<[key := v]> (session_state w)) (files w) (calls w) (screen w)).
Proof. reflexivity. Qed.

(** Without a click on the transcribe button the recorder section returns
    and leaves the session and the request log as they were. *)
Lemma recording_idle (env : Env) (i : Inputs) (w : World) :
  click_transcribe i = false ->
  exists disk scr,
    recording env i w = (Ok tt, mkWorld (session_state w) disk (calls w) scr).
Proof.
  intros Hclick. unfold recording. rewrite !bind_draw.
  destruct (audio_value i) as [audio |].
  - rewrite bind_named_temporary_file, bind_draw, Hclick. by eexists _, _.
  - by eexists _, _.
Qed.

Lemma think_and_process_ok (env : Env) (text task reply : pystr) (w : World) :
  generate_content env (calls w) (build_prompt text task) None = Reply reply ->
  think_and_process env text task w =
    (Ok (strip_fences reply),
     mkWorld (session_state w) (files w)
       (Generate (build_prompt text task) None :: calls w) (screen w)).
Proof. intros H. unfold think_and_process, bind, gw_generate. by rewrite H. Qed.

Lemma think_and_process_failed (env : Env) (text task : pystr) (w : World)
    (cls : string) (msg : pystr) :
  generate_content env (calls w) (build_prompt text task) None = Failure cls msg ->
  think_and_process env text task w =
    (Raise (PyException cls msg),
     mkWorld (session_state w) (files w)
       (Generate (build_prompt text task) None :: calls w) (screen w)).
Proof. intros H. unfold think_and_process, bind, gw_generate. by rewrite H. Qed.

(** The run up to the request for the chosen task. *)
Lemma script_run_until_analysis (env : Env) (i : Inputs) (w : World) (text task : pystr) :
  api_key i <> [] ->
  click_transcribe i = false ->
  session_state w !! "transcript" = Some text ->
  chosen_task i = Some task ->
  exists disk scr (rest : M unit),
    script_run env i w =
      (exec (do result <- think_and_process env text task in
             exec session_set "result" result in
             session_set "task" task) in
       rest) (mkWorld (session_state w) disk (calls w) scr) /\
    forall c, preserves (fun w' => session_state w' = c) rest.
Proof.
  intros Hkey Hclick Htext Htask. unfold script_run, main. rewrite !bind_draw.
  destruct (api_key i) as [| c key]; [done |].
  cbn [session_state files calls screen].
  match goal with
  | |- context [bind (recording env i) _ ?w0] =>
      destruct (recording_idle env i w0 Hclick) as [disk [scr Hrec]]
  end.
  cbn [session_state files calls screen] in Hrec.
  rewrite (bind_ok _ _ _ _ _ Hrec).
  unfold bind at 1, session_has at 1. cbn [session_state files calls screen].
  rewrite bool_decide_eq_true_2 by (rewrite Htext; by eexists).
  cbn [when]. unfold transcript_and_actions.
  rewrite bind_draw, (bind_session_get "transcript" text) by done.
  rewrite !bind_draw. rewrite Htask. rewrite bind_assoc, bind_draw, bind_assoc.
  cbn [session_state files calls screen].
  rewrite (bind_session_get "transcript" text) by done.
  eexists _, _, _. split; [reflexivity |].
  intros c0. walk fail.
Qed.

(** X19: clicking a task button in a run with a stored transcript asks the
    model with that task's prompt built from the stored transcript; when the
    model replies, the reply stripped of fences is stored as the result and
    the task's name as the task, and nothing else in the session changes,
    whatever happens later in the run. *)
Theorem analysis_stores_stripped_reply
    (env : Env) (i : Inputs) (w : World) (text task reply : pystr) :
  api_key i <> [] ->
  click_transcribe i = false ->
  session_state w !! "transcript" = Some text ->
  chosen_task i = Some task ->
  generate_content env (calls w) (build_prompt text task) None = Reply reply ->
  session_state (snd (script_run env i w))
    = <["task" := task]> (<["result" := strip_fences reply]> (session_state w)).
Proof.
  intros Hkey Hclick Htext Htask Hgen.
  destruct (script_run_until_analysis env i w text task Hkey Hclick Htext Htask)
    as (disk & scr & rest & -> & Hrest).
  rewrite bind_assoc.
  rewrite (bind_ok _ _ _ _ _
             (think_and_process_ok env text task reply
                (mkWorld (session_state w) disk (calls w) scr) Hgen)).
  rewrite bind_assoc, !bind_session_set. cbn [session_state files calls screen].
  by apply Hrest.
Qed.

Lemma analysis_stores_stripped_reply_witness :
  let env := constant_env (lit "```- greet``` ") in
  let w := snd (script_run env transcribe_inputs empty_world) in
  session_state (snd (script_run env summarize_inputs w))
    = <["task" := lit "Summarize"]>
        (<["result" := strip_fences (lit "```- greet``` ")]> (session_state w)).
Proof.
  intros env w.
  apply (analysis_stores_stripped_reply env summarize_inputs w (lit "```- greet``` ")
           (lit "Summarize") (lit "```- greet``` ")).
  - discriminate.
  - reflexivity.
  - vm_compute. reflexivity.
  - reflexivity.
  - reflexivity.
Defined.

(** X20: when the model fails on the analysis request, the run ends there
    with the client's exception: nothing is stored, and the session is as
    it was before the run. *)
Theorem analysis_failure_aborts_the_run
    (env : Env) (i : Inputs) (w : World) (text task : pystr) (cls : string) (msg : pystr) :
  api_key i <> [] ->
  click_transcribe i = false ->
  session_state w !! "transcript" = Some text ->
  chosen_task i = Some task ->
  generate_content env (calls w) (build_prompt text task) None = Failure cls msg ->
  fst (script_run env i w) = Raise (PyException cls msg) /\
  session_state (snd (script_run env i w)) = session_state w /\
  calls (snd (script_run env i w)) = Generate (build_prompt text task) None :: calls w.
Proof.
  intros Hkey Hclick Htext Htask Hgen.
  destruct (script_run_until_analysis env i w text task Hkey Hclick Htext Htask)
    as (disk & scr & rest & -> & _).
  rewrite bind_assoc.
  by rewrite (bind_raise _ _ _ _ _
                (think_and_process_failed env text task
                   (mkWorld (session_state w) disk (calls w) scr) cls msg Hgen)).
Qed.

Lemma analysis_failure_aborts_the_run_witness :
  let w := snd (script_run (constant_env (lit "Speaker 1: Hello.")) transcribe_inputs
                  empty_world) in
  fst (script_run failing_env summarize_inputs w) = Raise quota_error /\
  session_state (snd (script_run failing_env summarize_inputs w)) = session_state w /\
  calls (snd (script_run failing_env summarize_inputs w))
    = Generate (build_prompt (lit "Speaker 1: Hello.") (lit "Summarize")) None :: calls w.
Proof.
  intros w.
  apply (analysis_failure_aborts_the_run failing_env summarize_inputs w
           (lit "Speaker 1: Hello.") (lit "Summarize") "ResourceExhausted"
           (lit "429 quota exceeded")).
  - discriminate.
  - reflexivity.
  - vm_compute. reflexivity.
  - reflexivity.
  - reflexivity.
Defined.

(** X21: only a transcription and an analysis write to the session: a run
    in which neither the transcribe button nor a task button is clicked
    leaves the session as it was, also when it shows the result, builds
    the exports and answers a chat question. *)
Theorem exports_and_chat_leave_the_session (env : Env) (i : Inputs) (w : World) :
  click_transcribe i = false ->
  chosen_task i = None ->
  session_state (snd (script_run env i w)) = session_state w.
Proof.
  intros Hclick Htask. unfold script_run.
  cut (preserves (fun w' => session_state w' = session_state w) (main env i)).
  { intros H. by apply H. }
  unfold main, recording, transcript_and_actions.
  rewrite Hclick, Htask. unfold when at 1.
  walk fail.
Qed.

Lemma exports_and_chat_leave_the_session_witness :
  let env := constant_env (lit "Speaker 1: Hello.") in
  let w := snd (script_run env summarize_inputs
                  (snd (script_run env transcribe_inputs empty_world))) in
  session_state (snd (script_run env question_inputs w)) = session_state w.
Proof.
  intros env w.
  apply (exports_and_chat_leave_the_session env question_inputs w); reflexivity.
Defined.

(** ** The result panel *)

Lemma bind_lift_ok {A B : Type} (r : result A) (a : A) (k : A -> M B) (w : World) :
  r = Ok a -> bind (lift r) k w = k a w.
Proof. by intros ->. Qed.

(** X22: with a task, a result and a transcript in the session, and both
    exporters succeeding, the result panel shows the result (as a diagram
    or as code for Mind Map, as an info box otherwise) and then offers
    notes.docx and notes.pdf: the DOCX built from the stored transcript
    and result, and the PDF titled "VerbaFlow" built from the same two. *)
Theorem result_panel_offers_both_exports
    (env : Env) (w : World) (task result transcript : pystr) (docx pdf : pybytes) :
  session_state w !! "task" = Some task ->
  session_state w !! "result" = Some result ->
  session_state w !! "transcript" = Some transcript ->
  docx_save env (docx_items transcript result) = Reply docx ->
  create_pdf env (lit "VerbaFlow") transcript result = Ok pdf ->
  exists shown,
    result_panel env w =
      (Ok tt,
       mkWorld (session_state w)
         (<[fresh (dom (files w)) := mkFile ".docx" docx]> (files w))
         (calls w)
         (DownloadButton (lit "Download PDF") pdf (lit "notes.pdf")
          :: DownloadButton (lit "Download DOCX") docx (lit "notes.docx")
          :: shown
          :: Markdown (lit "### Result: " ++ task)
          :: screen w)) /\
    (shown = Info result /\ task <> lit "Mind Map" \/
     (shown = Mermaid result \/ shown = Code result) /\ task = lit "Mind Map").
Proof.
  intros Htask Hres Htr Hdocx Hpdf. unfold result_panel.
  rewrite (bind_session_get "task" task) by done. rewrite bind_draw.
  rewrite (bind_session_get "result" result) by done.
  assert (Hshow : exists shown,
            (forall (k : M unit) w0,
               (exec (if eqb task (lit "Mind Map")
                      then match st_mermaid env result with
                           | Reply _ => draw (Mermaid result)
                           | Failure _ _ => draw (Code result)
                           end
                      else draw (Info result)) in k) w0
               = k (mkWorld (session_state w0) (files w0) (calls w0) (shown :: screen w0))) /\
            (shown = Info result /\ task <> lit "Mind Map" \/
             (shown = Mermaid result \/ shown = Code result) /\ task = lit "Mind Map")).
  { destruct (eqb task (lit "Mind Map")) eqn:Heq.
    - apply eqb_eq in Heq.
      destruct (st_mermaid env result) as [[] | cls msg].
      + exists (Mermaid result). split; [done | right; auto].
      + exists (Code result). split; [done | right; auto].
    - exists (Info result). split; [done | left]. split; [done |].
      intros ->. by rewrite (proj2 (eqb_eq _ _) eq_refl) in Heq. }
  destruct Hshow as [shown [Hstep Hkind]]. exists shown. split; [| exact Hkind].
  rewrite Hstep. cbn [session_state files calls screen].
  rewrite (bind_session_get "transcript" transcript) by done.
  rewrite (bind_ok _ _ _ _ _ (create_docx_saved env transcript result _ docx Hdocx)).
  rewrite bind_draw. cbn [session_state files calls screen].
  by rewrite (bind_lift_ok _ pdf) by done.
Qed.

Lemma result_panel_offers_both_exports_witness :
  let env := constant_env [] in
  let w := mkWorld (<["task" := lit "Summarize"]>
                      (<["result" := lit "- greet"]>
                         (<["transcript" := lit "Speaker 1: Hello."]> ∅))) ∅ [] [] in
  let docx := Latin1.encode_replace
                (lit "VerbaFlow Report" ++ lit "AI Notes" ++ lit "- greet" ++
                 lit "Transcript" ++ lit "Speaker 1: Hello.") in
  let pdf := Latin1.encode_replace
               (lit "VerbaFlow" ++ lit "AI Notes:" ++ lit "- greet" ++ lit "Transcript:" ++
                lit "Speaker 1: Hello.") in
  exists shown,
    result_panel env w =
      (Ok tt,
       mkWorld (session_state w)
         (<[fresh (dom (files w)) := mkFile ".docx" docx]> (files w))
         (calls w)
         (DownloadButton (lit "Download PDF") pdf (lit "notes.pdf")
          :: DownloadButton (lit "Download DOCX") docx (lit "notes.docx")
          :: shown
          :: Markdown (lit "### Result: " ++ lit "Summarize")
          :: screen w)) /\
    (shown = Info (lit "- greet") /\ lit "Summarize" <> lit "Mind Map" \/
     (shown = Mermaid (lit "- greet") \/ shown = Code (lit "- greet")) /\
       lit "Summarize" = lit "Mind Map").
Proof.
  intros env w docx pdf.
  apply (result_panel_offers_both_exports env w (lit "Summarize") (lit "- greet")
           (lit "Speaker 1: Hello.") docx pdf).
  - vm_compute. reflexivity.
  - vm_compute. reflexivity.
  - vm_compute. reflexivity.
  - reflexivity.
  - reflexivity.
Defined.
